(** * Data Hub: the client I/O service (ioService) and the Query service
      (queryService.c), over a model of the resource tree.

    Doubles are Rocq's primitive IEEE-754 binary64 floats, so NaN and its
    comparison behaviour (a NaN is never [< 0]) are those of the C code.
    The resource tree (resTree_* ) and the data samples (dataSample_* ) are
    library code of the Data Hub that is not among the files given here; they
    are modelled from the spec and marked as such. The tree is a finite map
    from absolute paths (lists of segments) to entries; the root is [[]]. *)

From Stdlib Require Import Floats Ascii String.
From Stdlib Require Import Lia.
From stdpp Require Import base gmap list strings.

Open Scope string_scope.

(** ** Enumerations of the API *)

Inductive io_DataType_t :=
| IO_DATA_TYPE_TRIGGER
| IO_DATA_TYPE_BOOLEAN
| IO_DATA_TYPE_NUMERIC
| IO_DATA_TYPE_STRING
| IO_DATA_TYPE_JSON.

#[global] Instance io_DataType_eq_dec : EqDecision io_DataType_t.
Proof. solve_decision. Defined.

(** [admin_EntryType_t] without [ADMIN_ENTRY_TYPE_NONE]: that value is
    what [resTree_GetEntryType] reports for a NULL reference, modelled as
    [None] of [option admin_EntryType_t]. *)
Inductive admin_EntryType_t :=
| ADMIN_ENTRY_TYPE_NAMESPACE
| ADMIN_ENTRY_TYPE_PLACEHOLDER
| ADMIN_ENTRY_TYPE_INPUT
| ADMIN_ENTRY_TYPE_OUTPUT
| ADMIN_ENTRY_TYPE_OBSERVATION.

#[global] Instance admin_EntryType_eq_dec : EqDecision admin_EntryType_t.
Proof. solve_decision. Defined.

Inductive le_result_t :=
| LE_OK
| LE_NOT_FOUND
| LE_DUPLICATE
| LE_UNAVAILABLE
| LE_UNSUPPORTED
| LE_FORMAT_ERROR
| LE_OVERFLOW
| LE_NO_MEMORY
| LE_FAULT.

(** ** Data samples *)

Inductive payload :=
| PTrigger
| PBoolean (b : bool)
| PNumeric (x : float)
| PString (s : string)
| PJson (j : string).

Record dataSample := mkSample { timestamp : float; value : payload }.

Definition dataSample_GetTimestamp (s : dataSample) : float := timestamp s.

(** Accessors: the C code reads the sample's union for the kind asked;
    a sample of another kind yields the zero of the asked type. *)
Definition dataSample_GetBoolean (s : dataSample) : bool :=
  match value s with PBoolean b => b | _ => false end.
Definition dataSample_GetNumeric (s : dataSample) : float :=
  match value s with PNumeric x => x | _ => 0%float end.
Definition dataSample_GetString (s : dataSample) : string :=
  match value s with PString t => t | _ => "" end.
Definition dataSample_GetJson (s : dataSample) : string :=
  match value s with PJson j => j | _ => "" end.

Definition dataSample_CreateTrigger (ts : float) := mkSample ts PTrigger.
Definition dataSample_CreateBoolean (ts : float) (b : bool) := mkSample ts (PBoolean b).
Definition dataSample_CreateNumeric (ts : float) (x : float) := mkSample ts (PNumeric x).
Definition dataSample_CreateString (ts : float) (s : string) := mkSample ts (PString s).
Definition dataSample_CreateJson (ts : float) (j : string) := mkSample ts (PJson j).

(** [le_utf8_Copy] of the Legato framework: copies [src] into a buffer of
    [size] bytes (terminator included); LE_OVERFLOW when it does not fit.
    Simplified: the result code agrees with the library for any [size > 0]
    (a string fits iff its byte length is below [size]), but the truncated
    copy is cut byte-wise, whereas the library stops before the first UTF-8
    character that would not fit; the two agree on single-byte text only.
    The library asserts [size > 0]; [size = 0] is not modelled faithfully.
    No property below depends on the truncated text. *)
Definition le_utf8_Copy (src : string) (size : nat) : le_result_t * string :=
  if Nat.ltb (String.length src) size then (LE_OK, src)
  else (LE_OVERFLOW, String.substring 0 (size - 1) src).

(** ** Resource tree entries *)

Record Entry := mkEntry {
  role : admin_EntryType_t;
  dataType : io_DataType_t;
  units : string;
  currentValue : option dataSample;
  defaultValue : option dataSample;
  buffer : list dataSample;
  bufferMaxCount : nat
}.

Abbreviation key := (list string).

Definition set_role (r : admin_EntryType_t) (e : Entry) : Entry :=
  mkEntry r (dataType e) (units e) (currentValue e) (defaultValue e)
    (buffer e) (bufferMaxCount e).
Definition set_type (dt : io_DataType_t) (u : string) (e : Entry) : Entry :=
  mkEntry (role e) dt u (currentValue e) (defaultValue e)
    (buffer e) (bufferMaxCount e).
Definition set_current (s : dataSample) (b : list dataSample) (e : Entry) : Entry :=
  mkEntry (role e) (dataType e) (units e) (Some s) (defaultValue e)
    b (bufferMaxCount e).
Definition set_default (s : dataSample) (e : Entry) : Entry :=
  mkEntry (role e) (dataType e) (units e) (currentValue e) (Some s)
    (buffer e) (bufferMaxCount e).

(** A fresh node: a Namespace carries no data (type Trigger, units ""). *)
Definition namespace_entry : Entry :=
  mkEntry ADMIN_ENTRY_TYPE_NAMESPACE IO_DATA_TYPE_TRIGGER "" None None [] 0.

(** ** Paths *)

Fixpoint split_slash (s : string) : list string :=
  match s with
  | EmptyString => [""]
  | String c rest =>
      if Ascii.eqb c "/"%char then "" :: split_slash rest
      else match split_slash rest with
           | x :: xs => String c x :: xs
           | [] => [String c ""]
           end
  end.

(** Modelled from the spec: the path parser of resTree (not among the
    given files). [/] separates segments; empty segments (a leading, trailing
    or doubled [/]) are skipped. *)
Definition segments (path : string) : list string :=
  filter (fun x => x <> "") (split_slash path).

Definition is_absolute (path : string) : bool :=
  match path with String c _ => Ascii.eqb c "/"%char | EmptyString => false end.

Section ResTree.

Implicit Types (t : gmap key Entry) (k base : key).

(** Modelled from the spec: [resTree_FindEntry] (findEntry(base, path)):
    the entry at [base] followed by the path's segments, if it exists. *)
Definition resTree_FindEntry t base (path : string) : option key :=
  let k := app base (segments path) in
  match t !! k with Some _ => Some k | None => None end.

(** Modelled from the spec: [resTree_FindEntryAtAbsolutePath]; a path not
    starting with [/] is not found. *)
Definition resTree_FindEntryAtAbsolutePath t (path : string) : option key :=
  if is_absolute path then resTree_FindEntry t [] path else None.

(** [resTree_GetEntryType]: ADMIN_ENTRY_TYPE_NONE ([None]) for NULL. *)
Definition resTree_GetEntryType t (r : option key) : option admin_EntryType_t :=
  match r with
  | Some k => match t !! k with Some e => Some (role e) | None => None end
  | None => None
  end.

Definition get_entry t k : Entry :=
  match t !! k with Some e => e | None => namespace_entry end.

Definition resTree_GetDataType t k : io_DataType_t := dataType (get_entry t k).
Definition resTree_GetUnits t k : string := units (get_entry t k).

(** Modelled from the spec: [resTree_IsResource]; every role but Namespace
    carries resource state. *)
Definition resTree_IsResource t k : bool :=
  match role (get_entry t k) with ADMIN_ENTRY_TYPE_NAMESPACE => false | _ => true end.

(** Modelled from the spec: [resTree_GetCurrentValue]; the current value,
    else the default value when one is set. *)
Definition resTree_GetCurrentValue t k : option dataSample :=
  match currentValue (get_entry t k) with
  | Some s => Some s
  | None => defaultValue (get_entry t k)
  end.

(** Modelled from the spec: [resTree_HasDefault]. *)
Definition resTree_HasDefault t k : bool :=
  match defaultValue (get_entry t k) with Some _ => true | None => false end.

(** Modelled from the spec: [resTree_SetDefault]; write-once. *)
Definition resTree_SetDefault t k (kind : io_DataType_t) (s : dataSample) : gmap key Entry :=
  match t !! k with
  | Some e => match defaultValue e with
              | None => <[k := set_default s e]> t
              | Some _ => t
              end
  | None => t
  end.

Definition ensure_ns t k : gmap key Entry :=
  match t !! k with Some _ => t | None => <[k := namespace_entry]> t end.

Fixpoint ensure_path t base (segs : list string) : gmap key Entry :=
  match segs with
  | [] => t
  | s :: rest => ensure_path (ensure_ns t (app base [s])) (app base [s]) rest
  end.

(** Modelled from the spec: [resTree_GetEntry]; missing nodes on the way
    are materialised as Namespaces. *)
Definition resTree_GetEntry t base (path : string) : gmap key Entry * key :=
  (ensure_path t base (segments path), app base (segments path)).

(** Modelled from the spec: [resTree_GetInput] / [resTree_GetOutput]
    (getInput / getOutput): a missing leaf is created, a Namespace or a
    Placeholder is promoted in place, an entry of the same role and
    (type, units) is returned as it is; anything else is refused. *)
Definition resTree_GetIO (r : admin_EntryType_t) t base (path : string)
    (dt : io_DataType_t) (u : string) : option (gmap key Entry * key) :=
  let segs := segments path in
  let k := app base segs in
  let t' := ensure_path t base (removelast segs) in
  match t !! k with
  | None =>
      Some (<[k := mkEntry r dt u None None [] 0]> t', k)
  | Some e =>
      match role e with
      | ADMIN_ENTRY_TYPE_NAMESPACE | ADMIN_ENTRY_TYPE_PLACEHOLDER =>
          Some (<[k := set_type dt u (set_role r e)]> t', k)
      | r' =>
          if decide (r' = r /\ dataType e = dt /\ units e = u)
          then Some (t', k) else None
      end
  end.

Definition resTree_GetInput := resTree_GetIO ADMIN_ENTRY_TYPE_INPUT.
Definition resTree_GetOutput := resTree_GetIO ADMIN_ENTRY_TYPE_OUTPUT.

End ResTree.

Section ResTreeMore.

Implicit Types (t : gmap key Entry) (k base : key).

Definition is_strict_prefix k (k' : key) : bool :=
  Nat.ltb (length k) (length k') && bool_decide (firstn (length k) k' = k).

Definition has_children t k : bool :=
  existsb (fun kv => is_strict_prefix k kv.1) (map_to_list t).

Fixpoint prune_namespaces t k (fuel : nat) : gmap key Entry :=
  match fuel with
  | O => t
  | S fuel' =>
      match t !! k with
      | Some e =>
          if bool_decide (role e = ADMIN_ENTRY_TYPE_NAMESPACE)
             && negb (has_children t k) && negb (bool_decide (k = []))
          then prune_namespaces (delete k t) (removelast k) fuel'
          else t
      | None => t
      end
  end.

(** Modelled from the spec: [resTree_DeleteIO] (deleteIO, sections 3.3 and
    4.7): an Input or Output with children is demoted to a Namespace; one
    without is removed with its now-empty Namespace ancestors. *)
Definition resTree_DeleteIO t k : gmap key Entry :=
  match t !! k with
  | Some e =>
      if has_children t k
      then <[k := mkEntry ADMIN_ENTRY_TYPE_NAMESPACE IO_DATA_TYPE_TRIGGER "" None None [] 0]> t
      else prune_namespaces (delete k t) (removelast k) (length k)
  | None => t
  end.

End ResTreeMore.

(** ** The service's world: tree, client session and collaborators *)

Record World := mkWorld {
  tree : gmap key Entry;
  (** the IPC session context pointer: the cached client namespace *)
  ctx : option key;
  (** [le_msg_GetClientProcessId] then [le_appInfo_GetName]: the client's
      app name, [None] if either lookup fails *)
  app_name : option string;
  (** the wall clock *)
  now : float;
  (** set by LE_KILL_CLIENT *)
  killed : bool;
  (** what buffer reads have written to their output files, in order *)
  sink : list (list dataSample)
}.

Definition set_tree (t : gmap key Entry) (w : World) : World :=
  mkWorld t (ctx w) (app_name w) (now w) (killed w) (sink w).
Definition set_ctx (c : key) (w : World) : World :=
  mkWorld (tree w) (Some c) (app_name w) (now w) (killed w) (sink w).
Definition kill (w : World) : World :=
  mkWorld (tree w) (ctx w) (app_name w) (now w) true (sink w).
Definition add_sink (b : list dataSample) (w : World) : World :=
  mkWorld (tree w) (ctx w) (app_name w) (now w) (killed w) (sink w ++ [b]).

Definition bounded (cap : nat) (b : list dataSample) : list dataSample :=
  drop (length b - cap) b.

(** Modelled from the spec: [resTree_Push] (push pipeline, section 4.3):
    a zero timestamp is replaced by the wall clock; an Input or Output
    accepts only its own data type (else the client is killed); an
    Observation or Placeholder takes the pushed kind as its data type; the
    sample becomes the current value and an Observation appends it to its
    buffer, evicting the oldest beyond the size cap. Not modelled: handler
    fan-out (step 5, which does not change the tree), eviction by the
    Observation's time-window cap (step 4; only the size cap is applied),
    and delivery of the sample to Observations bound to this resource
    (step 6). *)
Definition resTree_Push (w : World) (k : key) (kind : io_DataType_t)
    (s : dataSample) : World :=
  let s' := if PrimFloat.eqb (timestamp s) 0%float
            then mkSample (now w) (value s) else s in
  match tree w !! k with
  | None => w
  | Some e =>
      match role e with
      | ADMIN_ENTRY_TYPE_INPUT | ADMIN_ENTRY_TYPE_OUTPUT =>
          if decide (kind = dataType e)
          then set_tree (<[k := set_current s' (buffer e) e]> (tree w)) w
          else kill w
      | ADMIN_ENTRY_TYPE_OBSERVATION =>
          set_tree (<[k := set_type kind (units e)
                     (set_current s' (bounded (bufferMaxCount e) (buffer e ++ [s'])) e)]>
                     (tree w)) w
      | ADMIN_ENTRY_TYPE_PLACEHOLDER =>
          set_tree (<[k := set_type kind (units e) (set_current s' (buffer e) e)]>
                     (tree w)) w
      | ADMIN_ENTRY_TYPE_NAMESPACE => w
      end
  end.

(** ** ioService: the client I/O facade *)

(** [GetClientNamespace]: the cached namespace, else /app/<app-name>
    (created as needed) cached in the session; kills the client whose
    identity cannot be found. *)
Definition GetClientNamespace (w : World) : World * option key :=
  match ctx w with
  | Some nsRef => (w, Some nsRef)
  | None =>
      match app_name w with
      | None => (kill w, None)
      | Some appName =>
          let '(t1, appRef) := resTree_GetEntry (tree w) [] "app" in
          let '(t2, nsRef) := resTree_GetEntry t1 appRef appName in
          (set_ctx nsRef (set_tree t2 w), Some nsRef)
      end
  end.

(** [FindResource]: the Input or Output at [path] in the client's namespace. *)
Definition FindResource (w : World) (path : string) : World * option key :=
  let '(w1, nsRef) := GetClientNamespace w in
  let entryRef := match nsRef with
                  | Some n => resTree_FindEntry (tree w1) n path
                  | None => None
                  end in
  match resTree_GetEntryType (tree w1) entryRef with
  | Some ADMIN_ENTRY_TYPE_INPUT | Some ADMIN_ENTRY_TYPE_OUTPUT => (w1, entryRef)
  | _ => (w1, None)
  end.

(** [io_CreateInput] and [io_CreateOutput]. The switch's
    ADMIN_ENTRY_TYPE_NONE case (LE_FATAL) cannot be reached: a found entry
    has a role. A NULL namespace (client already killed) reaches
    [resTree_GetInput] with no base; that call is taken to fail. *)
Definition io_CreateInput (w : World) (path : string) (dt : io_DataType_t)
    (u : string) : World * le_result_t :=
  let '(w1, nsRef) := GetClientNamespace w in
  let resRef := match nsRef with
                | Some n => resTree_FindEntry (tree w1) n path
                | None => None
                end in
  let early :=
    match resRef with
    | Some k =>
        match resTree_GetEntryType (tree w1) (Some k) with
        | Some ADMIN_ENTRY_TYPE_INPUT =>
            if bool_decide (resTree_GetDataType (tree w1) k <> dt)
               || negb (String.eqb u (resTree_GetUnits (tree w1) k))
            then Some LE_DUPLICATE else Some LE_OK
        | Some ADMIN_ENTRY_TYPE_OUTPUT | Some ADMIN_ENTRY_TYPE_OBSERVATION =>
            Some LE_DUPLICATE
        | _ => None
        end
    | None => None
    end in
  match early with
  | Some r => (w1, r)
  | None =>
      match nsRef with
      | Some n =>
          match resTree_GetInput (tree w1) n path dt u with
          | Some (t2, _) => (set_tree t2 w1, LE_OK)
          | None => (kill w1, LE_FAULT)
          end
      | None => (kill w1, LE_FAULT)
      end
  end.

Definition io_CreateOutput (w : World) (path : string) (dt : io_DataType_t)
    (u : string) : World * le_result_t :=
  let '(w1, nsRef) := GetClientNamespace w in
  let resRef := match nsRef with
                | Some n => resTree_FindEntry (tree w1) n path
                | None => None
                end in
  let early :=
    match resRef with
    | Some k =>
        match resTree_GetEntryType (tree w1) (Some k) with
        | Some ADMIN_ENTRY_TYPE_OUTPUT =>
            if bool_decide (resTree_GetDataType (tree w1) k <> dt)
               || negb (String.eqb u (resTree_GetUnits (tree w1) k))
            then Some LE_DUPLICATE else Some LE_OK
        | Some ADMIN_ENTRY_TYPE_INPUT | Some ADMIN_ENTRY_TYPE_OBSERVATION =>
            Some LE_DUPLICATE
        | _ => None
        end
    | None => None
    end in
  match early with
  | Some r => (w1, r)
  | None =>
      match nsRef with
      | Some n =>
          match resTree_GetOutput (tree w1) n path dt u with
          | Some (t2, _) => (set_tree t2 w1, LE_OK)
          | None => (kill w1, LE_FAULT)
          end
      | None => (kill w1, LE_FAULT)
      end
  end.

Definition io_DeleteResource (w : World) (path : string) : World :=
  let '(w1, resRef) := FindResource w path in
  match resRef with
  | Some k => set_tree (resTree_DeleteIO (tree w1) k) w1
  | None => w1
  end.

Definition io_PushTrigger (w : World) (path : string) (ts : float) : World :=
  let '(w1, resRef) := FindResource w path in
  match resRef with
  | None => kill w1
  | Some k => resTree_Push w1 k IO_DATA_TYPE_TRIGGER (dataSample_CreateTrigger ts)
  end.

Definition io_PushBoolean (w : World) (path : string) (ts : float) (v : bool) : World :=
  let '(w1, resRef) := FindResource w path in
  match resRef with
  | None => kill w1
  | Some k => resTree_Push w1 k IO_DATA_TYPE_BOOLEAN (dataSample_CreateBoolean ts v)
  end.

Definition io_PushNumeric (w : World) (path : string) (ts : float) (v : float) : World :=
  let '(w1, resRef) := FindResource w path in
  match resRef with
  | None => kill w1
  | Some k => resTree_Push w1 k IO_DATA_TYPE_NUMERIC (dataSample_CreateNumeric ts v)
  end.

Definition io_PushString (w : World) (path : string) (ts : float) (v : string) : World :=
  let '(w1, resRef) := FindResource w path in
  match resRef with
  | None => kill w1
  | Some k => resTree_Push w1 k IO_DATA_TYPE_STRING (dataSample_CreateString ts v)
  end.

Definition io_PushJson (w : World) (path : string) (ts : float) (v : string) : World :=
  let '(w1, resRef) := FindResource w path in
  match resRef with
  | None => kill w1
  | Some k => resTree_Push w1 k IO_DATA_TYPE_JSON (dataSample_CreateJson ts v)
  end.

Definition io_SetBooleanDefault (w : World) (path : string) (v : bool) : World :=
  let '(w1, resRef) := FindResource w path in
  match resRef with
  | None => kill w1
  | Some k =>
      if decide (resTree_GetDataType (tree w1) k <> IO_DATA_TYPE_BOOLEAN) then kill w1
      else if negb (resTree_HasDefault (tree w1) k)
      then set_tree (resTree_SetDefault (tree w1) k IO_DATA_TYPE_BOOLEAN
                       (dataSample_CreateBoolean 0%float v)) w1
      else w1
  end.

Definition io_SetNumericDefault (w : World) (path : string) (v : float) : World :=
  let '(w1, resRef) := FindResource w path in
  match resRef with
  | None => kill w1
  | Some k =>
      if decide (resTree_GetDataType (tree w1) k <> IO_DATA_TYPE_NUMERIC) then kill w1
      else if negb (resTree_HasDefault (tree w1) k)
      then set_tree (resTree_SetDefault (tree w1) k IO_DATA_TYPE_NUMERIC
                       (dataSample_CreateNumeric 0%float v)) w1
      else w1
  end.

Definition io_SetStringDefault (w : World) (path : string) (v : string) : World :=
  let '(w1, resRef) := FindResource w path in
  match resRef with
  | None => kill w1
  | Some k =>
      if decide (resTree_GetDataType (tree w1) k <> IO_DATA_TYPE_STRING) then kill w1
      else if negb (resTree_HasDefault (tree w1) k)
      then set_tree (resTree_SetDefault (tree w1) k IO_DATA_TYPE_STRING
                       (dataSample_CreateString 0%float v)) w1
      else w1
  end.

Definition io_SetJsonDefault (w : World) (path : string) (v : string) : World :=
  let '(w1, resRef) := FindResource w path in
  match resRef with
  | None => kill w1
  | Some k =>
      if decide (resTree_GetDataType (tree w1) k <> IO_DATA_TYPE_JSON) then kill w1
      else if negb (resTree_HasDefault (tree w1) k)
      then set_tree (resTree_SetDefault (tree w1) k IO_DATA_TYPE_JSON
                       (dataSample_CreateJson 0%float v)) w1
      else w1
  end.

(** [GetCurrentValue]: kills the client on a fetch of the wrong type. *)
Definition GetCurrentValue (w : World) (k : key) (dt : io_DataType_t)
    : World * option dataSample :=
  if decide (resTree_GetDataType (tree w) k <> dt) then (kill w, None)
  else (w, resTree_GetCurrentValue (tree w) k).

(** The getters return the result code and the final contents of their
    out-parameters, given their contents on entry. *)
Definition io_GetTimestamp (w : World) (path : string) (tsOut : float)
    : World * (le_result_t * float) :=
  let '(w1, resRef) := FindResource w path in
  match resRef with
  | None => (w1, (LE_NOT_FOUND, tsOut))
  | Some k =>
      match resTree_GetCurrentValue (tree w1) k with
      | None => (w1, (LE_UNAVAILABLE, tsOut))
      | Some cv => (w1, (LE_OK, dataSample_GetTimestamp cv))
      end
  end.

Definition io_GetBoolean (w : World) (path : string) (tsOut : float) (vOut : bool)
    : World * (le_result_t * float * bool) :=
  let '(w1, resRef) := FindResource w path in
  match resRef with
  | None => (w1, (LE_NOT_FOUND, tsOut, vOut))
  | Some k =>
      let '(w2, cv) := GetCurrentValue w1 k IO_DATA_TYPE_BOOLEAN in
      match cv with
      | None => (w2, (LE_UNAVAILABLE, tsOut, vOut))
      | Some s => (w2, (LE_OK, tsOut, dataSample_GetBoolean s))
      end
  end.

Definition io_GetNumeric (w : World) (path : string) (tsOut : float) (vOut : float)
    : World * (le_result_t * float * float) :=
  let '(w1, resRef) := FindResource w path in
  match resRef with
  | None => (w1, (LE_NOT_FOUND, tsOut, vOut))
  | Some k =>
      let '(w2, cv) := GetCurrentValue w1 k IO_DATA_TYPE_NUMERIC in
      match cv with
      | None => (w2, (LE_UNAVAILABLE, tsOut, vOut))
      | Some s => (w2, (LE_OK, tsOut, dataSample_GetNumeric s))
      end
  end.

Definition io_GetString (w : World) (path : string) (tsOut : float) (vOut : string)
    (valueSize : nat) : World * (le_result_t * float * string) :=
  let '(w1, resRef) := FindResource w path in
  match resRef with
  | None => (w1, (LE_NOT_FOUND, tsOut, vOut))
  | Some k =>
      let '(w2, cv) := GetCurrentValue w1 k IO_DATA_TYPE_STRING in
      match cv with
      | None => (w2, (LE_UNAVAILABLE, tsOut, vOut))
      | Some s =>
          let '(r, txt) := le_utf8_Copy (dataSample_GetString s) valueSize in
          (w2, (r, tsOut, txt))
      end
  end.

(** ** JSON projection *)

(** The double-quote character (ASCII 34). *)
Definition quote_char : ascii := Ascii.ascii_of_nat 34.

(** A lower-case hexadecimal digit, for [n < 16]. *)
Definition hex_digit (n : nat) : ascii :=
  if Nat.ltb n 10 then Ascii.ascii_of_nat (48 + n) else Ascii.ascii_of_nat (87 + n).

(** JSON string escaping: the quote and the backslash are prefixed with a
    backslash, and the control characters U+0000 to U+001F are written as
    [\u00XX]. *)
Fixpoint json_escape (s : string) : string :=
  match s with
  | EmptyString => EmptyString
  | String c rest =>
      if Ascii.eqb c quote_char || Ascii.eqb c "\"%char
      then String "\"%char (String c (json_escape rest))
      else if Nat.ltb (Ascii.nat_of_ascii c) 32
      then String.append "\u00"
             (String (hex_digit (Ascii.nat_of_ascii c / 16))
                (String (hex_digit (Ascii.nat_of_ascii c mod 16)) (json_escape rest)))
      else String c (json_escape rest)
  end.

Section Json.

(** The text of a number (the C library's formatting of a double). *)
Variable format_double : float -> string.

(** Modelled from the spec: [dataSample_ConvertToJson] (section 4.2): the
    projection of the sample read as [dt], copied into a buffer of
    [valueSize] bytes. *)
Definition dataSample_ConvertToJson (s : dataSample) (dt : io_DataType_t)
    (valueSize : nat) : le_result_t * string :=
  let txt :=
    match dt with
    | IO_DATA_TYPE_TRIGGER => "null"
    | IO_DATA_TYPE_BOOLEAN => if dataSample_GetBoolean s then "true" else "false"
    | IO_DATA_TYPE_NUMERIC => format_double (dataSample_GetNumeric s)
    | IO_DATA_TYPE_STRING =>
        String quote_char (json_escape (dataSample_GetString s) ++ String quote_char EmptyString)
    | IO_DATA_TYPE_JSON => dataSample_GetJson s
    end in
  le_utf8_Copy txt valueSize.

Definition io_GetJson (w : World) (path : string) (tsOut : float) (vOut : string)
    (valueSize : nat) : World * (le_result_t * float * string) :=
  let '(w1, resRef) := FindResource w path in
  match resRef with
  | None => (w1, (LE_NOT_FOUND, tsOut, vOut))
  | Some k =>
      match resTree_GetCurrentValue (tree w1) k with
      | None => (w1, (LE_UNAVAILABLE, tsOut, vOut))
      | Some cv =>
          let '(r, txt) := dataSample_ConvertToJson cv (resTree_GetDataType (tree w1) k)
                             valueSize in
          (w1, (r, tsOut, txt))
      end
  end.

End Json.

(** ** queryService.c: the Query facade *)

(** [FindObservation]: an absolute path must begin with "/obs/"; a relative
    one is looked up under /obs; the entry must be an Observation. *)
Definition FindObservation (t : gmap key Entry) (path : string) : option key :=
  let entry :=
    if String.prefix "/obs/" path then resTree_FindEntry t [] path
    else if is_absolute path then None
    else match resTree_FindEntry t [] "obs" with
         | None => None
         | Some obsNamespace => resTree_FindEntry t obsNamespace path
         end in
  match entry with
  | None => None
  | Some k =>
      if decide (resTree_GetEntryType t (Some k) <> Some ADMIN_ENTRY_TYPE_OBSERVATION)
      then None else Some k
  end.

Definition SECONDS_IN_30_YEARS : float := 946080000%float.

(** Modelled from the spec: [resTree_ReadBufferJson] (section 4.4): NaN reads
    the whole buffer; below 30 years [startAfter] counts seconds before now,
    otherwise seconds since the Epoch; the samples after that time are
    written, in buffer order, to the output file. *)
Definition resTree_ReadBufferJson (w : World) (k : key) (startAfter : float) : World :=
  let b := buffer (get_entry (tree w) k) in
  let selected :=
    if PrimFloat.is_nan startAfter then b
    else
      let start := if PrimFloat.ltb startAfter SECONDS_IN_30_YEARS
                   then PrimFloat.sub (now w) startAfter else startAfter in
      List.filter (fun s => PrimFloat.ltb start (timestamp s)) b in
  add_sink selected w.

Definition query_ReadBufferJson (w : World) (obsPath : string) (startAfter : float)
    : World * le_result_t :=
  match FindObservation (tree w) obsPath with
  | None => (w, LE_NOT_FOUND)
  | Some entryRef =>
      if PrimFloat.ltb startAfter 0%float then (kill w, LE_OK)
      else (resTree_ReadBufferJson w entryRef startAfter, LE_OK)
  end.

Definition query_GetMin (t : gmap key Entry) (obsPath : string) (startTime : float) : float :=
  match FindObservation t obsPath with
  | None => PrimFloat.nan
  | Some _ => PrimFloat.nan
  end.

Definition query_GetMax (t : gmap key Entry) (obsPath : string) (startTime : float) : float :=
  match FindObservation t obsPath with
  | None => PrimFloat.nan
  | Some _ => PrimFloat.nan
  end.

Definition query_GetMean (t : gmap key Entry) (obsPath : string) (startTime : float) : float :=
  match FindObservation t obsPath with
  | None => PrimFloat.nan
  | Some _ => PrimFloat.nan
  end.

Definition query_GetStdDev (t : gmap key Entry) (obsPath : string) (startTime : float) : float :=
  match FindObservation t obsPath with
  | None => PrimFloat.nan
  | Some _ => PrimFloat.nan
  end.

Definition query_GetDataType (t : gmap key Entry) (path : string) (dtOut : io_DataType_t)
    : le_result_t * io_DataType_t :=
  match resTree_FindEntryAtAbsolutePath t path with
  | None => (LE_NOT_FOUND, dtOut)
  | Some k =>
      if negb (resTree_IsResource t k) then (LE_UNSUPPORTED, dtOut)
      else (LE_OK, resTree_GetDataType t k)
  end.

Definition query_GetTimestamp (t : gmap key Entry) (path : string) (tsOut : float)
    : le_result_t * float :=
  match resTree_FindEntryAtAbsolutePath t path with
  | None => (LE_NOT_FOUND, tsOut)
  | Some k =>
      if negb (resTree_IsResource t k) then (LE_UNSUPPORTED, tsOut)
      else match resTree_GetCurrentValue t k with
           | None => (LE_UNAVAILABLE, tsOut)
           | Some s => (LE_OK, dataSample_GetTimestamp s)
           end
  end.

Definition query_GetBoolean (t : gmap key Entry) (path : string) (tsOut : float)
    (vOut : bool) : le_result_t * float * bool :=
  match resTree_FindEntryAtAbsolutePath t path with
  | None => (LE_NOT_FOUND, tsOut, vOut)
  | Some k =>
      if negb (resTree_IsResource t k) then (LE_UNSUPPORTED, tsOut, vOut)
      else match resTree_GetCurrentValue t k with
           | None => (LE_UNAVAILABLE, tsOut, vOut)
           | Some s =>
               if decide (resTree_GetDataType t k <> IO_DATA_TYPE_BOOLEAN)
               then (LE_FORMAT_ERROR, tsOut, vOut)
               else (LE_OK, dataSample_GetTimestamp s, dataSample_GetBoolean s)
           end
  end.

Definition query_GetNumeric (t : gmap key Entry) (path : string) (tsOut : float)
    (vOut : float) : le_result_t * float * float :=
  match resTree_FindEntryAtAbsolutePath t path with
  | None => (LE_NOT_FOUND, tsOut, vOut)
  | Some k =>
      if negb (resTree_IsResource t k) then (LE_UNSUPPORTED, tsOut, vOut)
      else match resTree_GetCurrentValue t k with
           | None => (LE_UNAVAILABLE, tsOut, vOut)
           | Some s =>
               if decide (resTree_GetDataType t k <> IO_DATA_TYPE_NUMERIC)
               then (LE_FORMAT_ERROR, tsOut, vOut)
               else (LE_OK, dataSample_GetTimestamp s, dataSample_GetNumeric s)
           end
  end.

Definition query_GetString (t : gmap key Entry) (path : string) (tsOut : float)
    (vOut : string) (valueSize : nat) : le_result_t * float * string :=
  match resTree_FindEntryAtAbsolutePath t path with
  | None => (LE_NOT_FOUND, tsOut, vOut)
  | Some k =>
      if negb (resTree_IsResource t k) then (LE_UNSUPPORTED, tsOut, vOut)
      else match resTree_GetCurrentValue t k with
           | None => (LE_UNAVAILABLE, tsOut, vOut)
           | Some s =>
               if decide (resTree_GetDataType t k <> IO_DATA_TYPE_STRING)
               then (LE_FORMAT_ERROR, tsOut, vOut)
               else let '(r, txt) := le_utf8_Copy (dataSample_GetString s) valueSize in
                    (r, dataSample_GetTimestamp s, txt)
           end
  end.

Definition query_GetJson (format_double : float -> string) (t : gmap key Entry)
    (path : string) (tsOut : float) (vOut : string) (valueSize : nat)
    : le_result_t * float * string :=
  match resTree_FindEntryAtAbsolutePath t path with
  | None => (LE_NOT_FOUND, tsOut, vOut)
  | Some k =>
      if negb (resTree_IsResource t k) then (LE_UNSUPPORTED, tsOut, vOut)
      else match resTree_GetCurrentValue t k with
           | None => (LE_UNAVAILABLE, tsOut, vOut)
           | Some s =>
               let ts := dataSample_GetTimestamp s in
               let dataType := resTree_GetDataType t k in
               if decide (dataType = IO_DATA_TYPE_JSON)
               then let '(r, txt) := le_utf8_Copy (dataSample_GetJson s) valueSize in
                    (r, ts, txt)
               else let '(r, txt) := dataSample_ConvertToJson format_double s dataType
                                       valueSize in
                    (r, ts, txt)
           end
  end.

(** ** Concrete scenarios *)

Definition root_tree : gmap key Entry := <[[] := namespace_entry]> ∅.

Definition world0 : World := mkWorld root_tree None (Some "sensorApp") 1800000000%float false [].

Definition obs_entry (b : list dataSample) : Entry :=
  mkEntry ADMIN_ENTRY_TYPE_OBSERVATION IO_DATA_TYPE_NUMERIC "" (last b) None b 100.

Definition obs_world (b : list dataSample) : World :=
  mkWorld (<[["obs"; "o"] := obs_entry b]> (<[["obs"] := namespace_entry]> root_tree))
    None None 1800000000%float false [].

Definition samples3 : list dataSample :=
  [dataSample_CreateNumeric 1700000000%float 10%float;
   dataSample_CreateNumeric 1700000001%float 20%float;
   dataSample_CreateNumeric 1700000002%float 30%float].

(** Output "x" of sensorApp, created from the empty hub. *)
Definition world_out : World := fst (io_CreateOutput world0 "x" IO_DATA_TYPE_NUMERIC "m").

(** Input "x" of sensorApp, created from the empty hub. *)
Definition world_x : World := fst (io_CreateInput world0 "x" IO_DATA_TYPE_NUMERIC "m").

(** Observation /app/sensorApp/o in the tree of [world_x]. *)
Definition world_obs_in_ns : World :=
  set_tree (<[["app"; "sensorApp"; "o"] := obs_entry samples3]> (tree world_x)) world_x.

(** A well-formed tree holds every ancestor of each of its entries. *)
Definition prefix_closed (t : gmap key Entry) : Prop :=
  forall k k' e, t !! k = Some e -> k' `prefix_of` k -> is_Some (t !! k').

Definition prefix_closedb (t : gmap key Entry) : bool :=
  forallb (fun kv => forallb (fun i => match t !! take i kv.1 with Some _ => true | None => false end)
                       (seq 0 (S (length kv.1))))
    (map_to_list t).

(** [world_x] after pushing 1.0 at time 5.0 to "x". *)
Definition world_x_pushed : World := io_PushNumeric world_x "x" 5%float 1%float.

(** Boolean Output "y" of sensorApp, without a default. *)
Definition world_y : World := fst (io_CreateOutput world0 "y" IO_DATA_TYPE_BOOLEAN "").

(** ** queryService.c: units *)

Definition query_GetUnits (t : gmap key Entry) (path : string) (unitsOut : string)
    (unitsSize : nat) : le_result_t * string :=
  match resTree_FindEntryAtAbsolutePath t path with
  | None => (LE_NOT_FOUND, unitsOut)
  | Some k =>
      if negb (resTree_IsResource t k) then (LE_UNSUPPORTED, unitsOut)
      else le_utf8_Copy (resTree_GetUnits t k) unitsSize
  end.

(** ** ioService: push handlers *)

(** A registered push handler: its entry, the data type it expects, and
    the client's callback and context pointers (opaque values). *)
Record hub_Handler := mkHandler {
  h_entry : key;
  h_dataType : io_DataType_t;
  h_callback : nat;
  h_context : nat
}.

(** The registry of push handlers. A handler reference is a positive
    number, so never NULL; [next_ref] is the next one handed out. *)
Record Handlers := mkHandlers {
  table : gmap positive hub_Handler;
  next_ref : positive
}.

(** Modelled from the spec: [resTree_AddPushHandler] (section 4.3,
    Handlers): attaches a handler to the entry and returns a new opaque
    reference. *)
Definition resTree_AddPushHandler (hs : Handlers) (k : key) (dt : io_DataType_t)
    (callbackPtr contextPtr : nat) : Handlers * positive :=
  (mkHandlers (<[next_ref hs := mkHandler k dt callbackPtr contextPtr]> (table hs))
              (Pos.succ (next_ref hs)),
   next_ref hs).

(** Modelled from the spec: [resTree_RemovePushHandler] unlinks the handler. *)
Definition resTree_RemovePushHandler (hs : Handlers) (handlerRef : positive) : Handlers :=
  mkHandlers (delete handlerRef (table hs)) (next_ref hs).

(** [AddPushHandler]: kills the client (and returns NULL) when its namespace
    cannot be found, or the path holds no entry, or an entry that is neither
    an Input nor an Output. *)
Definition AddPushHandler (w : World) (hs : Handlers) (path : string)
    (dt : io_DataType_t) (callbackPtr contextPtr : nat)
    : World * Handlers * option positive :=
  let '(w1, nsRef) := GetClientNamespace w in
  match nsRef with
  | None => (kill w1, hs, None)
  | Some n =>
      match resTree_FindEntry (tree w1) n path with
      | None => (kill w1, hs, None)
      | Some resRef =>
          match resTree_GetEntryType (tree w1) (Some resRef) with
          | Some ADMIN_ENTRY_TYPE_INPUT | Some ADMIN_ENTRY_TYPE_OUTPUT =>
              let '(hs', r) := resTree_AddPushHandler hs resRef dt callbackPtr contextPtr in
              (w1, hs', Some r)
          | _ => (kill w1, hs, None)
          end
      end
  end.

Definition io_AddTriggerPushHandler w hs path callbackPtr contextPtr :=
  AddPushHandler w hs path IO_DATA_TYPE_TRIGGER callbackPtr contextPtr.
Definition io_AddBooleanPushHandler w hs path callbackPtr contextPtr :=
  AddPushHandler w hs path IO_DATA_TYPE_BOOLEAN callbackPtr contextPtr.
Definition io_AddNumericPushHandler w hs path callbackPtr contextPtr :=
  AddPushHandler w hs path IO_DATA_TYPE_NUMERIC callbackPtr contextPtr.
Definition io_AddStringPushHandler w hs path callbackPtr contextPtr :=
  AddPushHandler w hs path IO_DATA_TYPE_STRING callbackPtr contextPtr.
Definition io_AddJsonPushHandler w hs path callbackPtr contextPtr :=
  AddPushHandler w hs path IO_DATA_TYPE_JSON callbackPtr contextPtr.

Definition io_RemoveTriggerPushHandler (hs : Handlers) (handlerRef : positive) :=
  resTree_RemovePushHandler hs handlerRef.
Definition io_RemoveBooleanPushHandler (hs : Handlers) (handlerRef : positive) :=
  resTree_RemovePushHandler hs handlerRef.
Definition io_RemoveNumericPushHandler (hs : Handlers) (handlerRef : positive) :=
  resTree_RemovePushHandler hs handlerRef.
Definition io_RemoveStringPushHandler (hs : Handlers) (handlerRef : positive) :=
  resTree_RemovePushHandler hs handlerRef.
Definition io_RemoveJsonPushHandler (hs : Handlers) (handlerRef : positive) :=
  resTree_RemovePushHandler hs handlerRef.

(** Every reference in use is below [next_ref]. *)
Definition registry_ok (hs : Handlers) : Prop :=
  forall r h, table hs !! r = Some h -> (r < next_ref hs)%positive.

(** ** ioService: optional Outputs *)

(** Modelled from the spec: [resTree_MarkOptional]; Outputs are mandatory
    by default, and the entries marked optional are kept as a set. *)
Definition resTree_MarkOptional (optional : gset key) (k : key) : gset key :=
  {[k]} ∪ optional.

Definition io_MarkOptional (w : World) (optional : gset key) (path : string)
    : World * gset key :=
  let '(w1, resRef) := FindResource w path in
  match resRef with
  | None => (kill w1, optional)
  | Some k =>
      if decide (resTree_GetEntryType (tree w1) (Some k) <> Some ADMIN_ENTRY_TYPE_OUTPUT)
      then (kill w1, optional)
      else (w1, resTree_MarkOptional optional k)
  end.

(** Every entry marked optional is an Output of the tree. *)
Definition optional_outputs (t : gmap key Entry) (optional : gset key) : Prop :=
  forall k, k ∈ optional -> exists e, t !! k = Some e /\ role e = ADMIN_ENTRY_TYPE_OUTPUT.

(** A client whose identity cannot be found: no cached namespace, no app. *)
Definition world_anon : World := mkWorld root_tree None None 1800000000%float false [].

(** The empty handler registry. *)
Definition handlers0 : Handlers := mkHandlers ∅ 1%positive.

(** * Properties *)

Open Scope list_scope.

(** ** Aggregates *)

(** C1 (code_bug): at an Observation /obs/o whose buffer holds the numeric
    samples 10, 20 and 30, all after the absolute start time 1600000000,
    query_GetMin, query_GetMax, query_GetMean and query_GetStdDev all return
    NaN instead of 10, 30, 20 and the standard deviation. *)
Lemma query_aggregates_nan_on_numeric_buffer :
  let t := tree (obs_world samples3) in
  FindObservation t "/obs/o" = Some ["obs"; "o"] /\
  buffer (get_entry t ["obs"; "o"]) = samples3 /\
  List.filter (fun s => PrimFloat.leb 1600000000%float (timestamp s)
                        && match value s with PNumeric _ => true | _ => false end)
    samples3 = samples3 /\
  PrimFloat.is_nan (query_GetMin t "/obs/o" 1600000000%float) = true /\
  PrimFloat.is_nan (query_GetMax t "/obs/o" 1600000000%float) = true /\
  PrimFloat.is_nan (query_GetMean t "/obs/o" 1600000000%float) = true /\
  PrimFloat.is_nan (query_GetStdDev t "/obs/o" 1600000000%float) = true.
Proof. vm_compute. repeat split. Qed.

(** ** Push-then-get round trip *)

(** C2 (code_bug): io_GetBoolean, io_GetNumeric and io_GetString never write
    their timestamp out-parameter, whatever the resource; so after creating
    the numeric Input "x", pushing 21.5 at 1700000000 and reading it back,
    io_GetNumeric returns LE_OK and 21.5 but leaves the timestamp at the
    caller's 0, while the query facade reports 1700000000. *)
Lemma io_get_timestamp_out_not_written :
  (forall w path ts v, (snd (io_GetBoolean w path ts v)).1.2 = ts) /\
  (forall w path ts v, (snd (io_GetNumeric w path ts v)).1.2 = ts) /\
  (forall w path ts v n, (snd (io_GetString w path ts v n)).1.2 = ts) /\
  (let '(w1, r1) := io_CreateInput world0 "x" IO_DATA_TYPE_NUMERIC "" in
   let w2 := io_PushNumeric w1 "x" 1700000000%float 21.5%float in
   r1 = LE_OK /\ killed w2 = false /\
   snd (io_GetNumeric w2 "x" 0%float 0%float) = (LE_OK, 0%float, 21.5%float) /\
   query_GetNumeric (tree w2) "/app/sensorApp/x" 0%float 0%float
     = (LE_OK, 1700000000%float, 21.5%float)).
Proof.
  split; [|split; [|split]].
  - intros w path ts v. unfold io_GetBoolean.
    destruct (FindResource w path) as [w1 [k|]]; [|reflexivity].
    destruct (GetCurrentValue w1 k IO_DATA_TYPE_BOOLEAN) as [w2 [s|]]; reflexivity.
  - intros w path ts v. unfold io_GetNumeric.
    destruct (FindResource w path) as [w1 [k|]]; [|reflexivity].
    destruct (GetCurrentValue w1 k IO_DATA_TYPE_NUMERIC) as [w2 [s|]]; reflexivity.
  - intros w path ts v n. unfold io_GetString.
    destruct (FindResource w path) as [w1 [k|]]; [|reflexivity].
    destruct (GetCurrentValue w1 k IO_DATA_TYPE_STRING) as [w2 [s|]]; [|reflexivity].
    destruct (le_utf8_Copy (dataSample_GetString s) n); reflexivity.
  - vm_compute. repeat split.
Qed.

(** ** Buffer reads *)

(** C4 (counterexample): a start time of 0 is not rejected; the read of the
    Observation /obs/o starts, the client is not killed and one read is
    written to the output file. *)
Lemma query_ReadBufferJson_zero_not_rejected :
  let '(w', r) := query_ReadBufferJson (obs_world samples3) "/obs/o" 0%float in
  r = LE_OK /\ killed w' = false /\ length (sink w') = 1%nat.
Proof. vm_compute. repeat split. Qed.

(** C4 (amended): for an existing Observation, query_ReadBufferJson kills the
    client and writes nothing exactly when startAfter < 0 (so not for NaN, 0
    or -0); any other value starts the read; with NaN the whole buffer is
    written. *)
Lemma query_ReadBufferJson_start_after (w : World) (obsPath : string) (k : key)
    (Hobs : FindObservation (tree w) obsPath = Some k) :
  (forall sa, PrimFloat.ltb sa 0%float = true ->
     query_ReadBufferJson w obsPath sa = (kill w, LE_OK) /\ sink (kill w) = sink w) /\
  (forall sa, PrimFloat.ltb sa 0%float = false ->
     query_ReadBufferJson w obsPath sa = (resTree_ReadBufferJson w k sa, LE_OK) /\
     killed (resTree_ReadBufferJson w k sa) = killed w) /\
  query_ReadBufferJson w obsPath PrimFloat.nan
    = (add_sink (buffer (get_entry (tree w) k)) w, LE_OK).
Proof.
  unfold query_ReadBufferJson. rewrite Hobs.
  split; [|split].
  - intros sa Hlt. rewrite Hlt. split; reflexivity.
  - intros sa Hlt. rewrite Hlt. split; reflexivity.
  - reflexivity.
Qed.

Lemma query_ReadBufferJson_start_after_witness :
  FindObservation (tree (obs_world samples3)) "/obs/o" = Some ["obs"; "o"] /\
  query_ReadBufferJson (obs_world samples3) "/obs/o" PrimFloat.nan
    = (add_sink samples3 (obs_world samples3), LE_OK).
Proof.
  split; [vm_compute; reflexivity|].
  apply (query_ReadBufferJson_start_after (obs_world samples3) "/obs/o" ["obs"; "o"]).
  vm_compute. reflexivity.
Defined.

(** ** Observation lookup of the Query facade *)

(** C9: an absolute path not beginning with "/obs/", and a path that
    resolves (as FindObservation resolves it) to an entry that is not an
    Observation, are not found: query_ReadBufferJson returns LE_NOT_FOUND
    without touching the world, and the aggregates return NaN. *)
Lemma query_non_observation_not_found :
  (forall w obsPath sa,
     is_absolute obsPath = true -> String.prefix "/obs/" obsPath = false ->
     query_ReadBufferJson w obsPath sa = (w, LE_NOT_FOUND) /\
     query_GetMin (tree w) obsPath sa = PrimFloat.nan /\
     query_GetMax (tree w) obsPath sa = PrimFloat.nan /\
     query_GetMean (tree w) obsPath sa = PrimFloat.nan /\
     query_GetStdDev (tree w) obsPath sa = PrimFloat.nan) /\
  (forall w obsPath sa k e,
     ((String.prefix "/obs/" obsPath = true /\ resTree_FindEntry (tree w) [] obsPath = Some k)
      \/ (String.prefix "/obs/" obsPath = false /\ is_absolute obsPath = false /\
          exists o, resTree_FindEntry (tree w) [] "obs" = Some o /\
                    resTree_FindEntry (tree w) o obsPath = Some k)) ->
     tree w !! k = Some e -> role e <> ADMIN_ENTRY_TYPE_OBSERVATION ->
     query_ReadBufferJson w obsPath sa = (w, LE_NOT_FOUND) /\
     query_GetMin (tree w) obsPath sa = PrimFloat.nan /\
     query_GetMax (tree w) obsPath sa = PrimFloat.nan /\
     query_GetMean (tree w) obsPath sa = PrimFloat.nan /\
     query_GetStdDev (tree w) obsPath sa = PrimFloat.nan).
Proof.
  assert (Hnone : forall w obsPath sa, FindObservation (tree w) obsPath = None ->
     query_ReadBufferJson w obsPath sa = (w, LE_NOT_FOUND) /\
     query_GetMin (tree w) obsPath sa = PrimFloat.nan /\
     query_GetMax (tree w) obsPath sa = PrimFloat.nan /\
     query_GetMean (tree w) obsPath sa = PrimFloat.nan /\
     query_GetStdDev (tree w) obsPath sa = PrimFloat.nan).
  { intros w obsPath sa H.
    unfold query_ReadBufferJson, query_GetMin, query_GetMax, query_GetMean,
      query_GetStdDev. rewrite H. repeat split. }
  split.
  - intros w obsPath sa Habs Hpre. apply Hnone.
    unfold FindObservation. rewrite Hpre, Habs. reflexivity.
  - intros w obsPath sa k e Hres Hk Hrole. apply Hnone.
    assert (Hty : resTree_GetEntryType (tree w) (Some k) <> Some ADMIN_ENTRY_TYPE_OBSERVATION).
    { simpl. rewrite Hk. intros [= Heq]. contradiction. }
    unfold FindObservation.
    destruct Hres as [[Hpre Hf] | [Hpre [Habs [o [Ho Hf]]]]].
    + rewrite Hpre, Hf. destruct (decide _); [reflexivity | contradiction].
    + rewrite Hpre, Habs, Ho, Hf. destruct (decide _); [reflexivity | contradiction].
Qed.

Lemma query_non_observation_not_found_witness :
  query_ReadBufferJson (obs_world samples3) "/app/x" 5%float
    = (obs_world samples3, LE_NOT_FOUND) /\
  query_ReadBufferJson (obs_world samples3) "/obs/" 5%float
    = (obs_world samples3, LE_NOT_FOUND).
Proof.
  split.
  - apply (proj1 query_non_observation_not_found); reflexivity.
  - apply (proj2 query_non_observation_not_found (obs_world samples3) "/obs/" 5%float
             ["obs"] namespace_entry).
    + left. split; vm_compute; reflexivity.
    + vm_compute. reflexivity.
    + discriminate.
Defined.

(** ** Namespace binding and lookup *)


Lemma ensure_ns_lookup (t : gmap key Entry) (k k' : key) (e : Entry) :
  t !! k = Some e -> ensure_ns t k' !! k = Some e.
Proof.
  intros H. unfold ensure_ns. destruct (t !! k') eqn:Hk'; [exact H|].
  rewrite lookup_insert_ne; [exact H|]. intros ->. congruence.
Qed.

Lemma ensure_path_lookup (segs : list string) :
  forall (t : gmap key Entry) (base k : key) (e : Entry),
  t !! k = Some e -> ensure_path t base segs !! k = Some e.
Proof.
  induction segs as [|s rest IH]; intros t base k e H; simpl; [exact H|].
  apply IH. apply ensure_ns_lookup. exact H.
Qed.

Lemma ensure_path_noop (segs : list string) :
  forall (t : gmap key Entry) (base : key),
  prefix_closed t -> is_Some (t !! (base ++ segs)) -> ensure_path t base segs = t.
Proof.
  induction segs as [|s rest IH]; intros t base Hpc Hin; simpl; [reflexivity|].
  assert (Hs : is_Some (t !! (base ++ [s]))).
  { destruct Hin as [e He]. apply (Hpc _ _ e He). exists rest.
    rewrite <- app_assoc. reflexivity. }
  unfold ensure_ns. destruct Hs as [e' He']. rewrite He'.
  apply IH; [exact Hpc|]. rewrite <- app_assoc. exact Hin.
Qed.

Lemma segments_app_ns : segments "app" = ["app"].
Proof. vm_compute. reflexivity. Qed.

Lemma GetClientNamespace_lookup (w w1 : World) (o : option key) (k : key) (e : Entry) :
  GetClientNamespace w = (w1, o) -> tree w !! k = Some e -> tree w1 !! k = Some e.
Proof.
  unfold GetClientNamespace. intros Hg Hk.
  destruct (ctx w) as [ns|].
  - injection Hg as <- _. exact Hk.
  - destruct (app_name w) as [name|].
    + injection Hg as <- _. simpl.
      repeat first [apply ensure_path_lookup | apply ensure_ns_lookup]. exact Hk.
    + injection Hg as <- _. exact Hk.
Qed.

Lemma GetClientNamespace_ctx (w w1 : World) (ns : key) :
  GetClientNamespace w = (w1, Some ns) -> ctx w1 = Some ns.
Proof.
  unfold GetClientNamespace. intros Hg.
  destruct (ctx w) as [ns'|] eqn:Hc.
  - injection Hg as <- <-. exact Hc.
  - destruct (app_name w) as [name|]; [|discriminate].
    injection Hg as <- <-. reflexivity.
Qed.

Lemma GetClientNamespace_cached (w : World) (ns : key) :
  ctx w = Some ns -> GetClientNamespace w = (w, Some ns).
Proof. intros Hc. unfold GetClientNamespace. rewrite Hc. reflexivity. Qed.

Lemma GetClientNamespace_killed (w w1 : World) (ns : key) :
  GetClientNamespace w = (w1, Some ns) -> killed w1 = killed w.
Proof.
  unfold GetClientNamespace. intros Hg.
  destruct (ctx w) as [ns'|].
  - injection Hg as <- _. reflexivity.
  - destruct (app_name w) as [name|]; [|discriminate].
    injection Hg as <- _. reflexivity.
Qed.

(** Binding an already present namespace of a well-formed tree leaves the
    tree as it is. *)
Lemma GetClientNamespace_tree (w w1 : World) (ns : key) :
  prefix_closed (tree w) -> GetClientNamespace w = (w1, Some ns) ->
  is_Some (tree w !! ns) -> tree w1 = tree w.
Proof.
  unfold GetClientNamespace. intros Hpc Hg Hns.
  destruct (ctx w) as [ns'|].
  - injection Hg as <- _. reflexivity.
  - destruct (app_name w) as [name|]; [|discriminate].
    injection Hg as <- <-. simpl. rewrite segments_app_ns in *. simpl in *.
    assert (Happ : is_Some (tree w !! ["app"])).
    { destruct Hns as [e He]. apply (Hpc _ _ e He). exists (segments name). reflexivity. }
    assert (Hns0 : ensure_ns (tree w) ["app"] = tree w).
    { unfold ensure_ns. destruct Happ as [ea ->]. reflexivity. }
    rewrite Hns0. apply ensure_path_noop; assumption.
Qed.

Lemma resTree_FindEntry_Some (t : gmap key Entry) (base k : key) (path : string) :
  resTree_FindEntry t base path = Some k -> k = base ++ segments path /\ is_Some (t !! k).
Proof.
  unfold resTree_FindEntry. destruct (t !! (base ++ segments path)) eqn:H; [|discriminate].
  intros [= <-]. split; [reflexivity | eexists; exact H].
Qed.

Lemma FindResource_io (w w1 : World) (ns k : key) (path : string) (e : Entry) :
  GetClientNamespace w = (w1, Some ns) -> resTree_FindEntry (tree w1) ns path = Some k ->
  tree w1 !! k = Some e ->
  (role e = ADMIN_ENTRY_TYPE_INPUT \/ role e = ADMIN_ENTRY_TYPE_OUTPUT) ->
  FindResource w path = (w1, Some k).
Proof.
  intros Hg Hf Hk Hr. unfold FindResource. rewrite Hg, Hf. simpl. rewrite Hk.
  destruct Hr as [-> | ->]; reflexivity.
Qed.

Lemma FindResource_other (w w1 : World) (ns k : key) (path : string) (e : Entry) :
  GetClientNamespace w = (w1, Some ns) -> resTree_FindEntry (tree w1) ns path = Some k ->
  tree w1 !! k = Some e ->
  role e <> ADMIN_ENTRY_TYPE_INPUT -> role e <> ADMIN_ENTRY_TYPE_OUTPUT ->
  FindResource w path = (w1, None).
Proof.
  intros Hg Hf Hk Hi Ho. unfold FindResource. rewrite Hg, Hf. simpl. rewrite Hk.
  destruct (role e); try reflexivity; contradiction.
Qed.

(** ** Creation of Inputs and Outputs *)

(** C3: when the client's identity resolves and the path already holds an
    entry whose role conflicts (Output or Observation for io_CreateInput,
    Input or Observation for io_CreateOutput) or whose role matches but
    whose (data type, units) differ, the call returns LE_DUPLICATE and the
    entry is unchanged; the only effect is the namespace binding. *)
Lemma io_Create_conflict_duplicate (w w1 : World) (ns k : key) (path : string)
    (e : Entry) (dt : io_DataType_t) (u : string)
    (Hg : GetClientNamespace w = (w1, Some ns))
    (Hf : resTree_FindEntry (tree w1) ns path = Some k)
    (He : tree w !! k = Some e) :
  ((role e = ADMIN_ENTRY_TYPE_OUTPUT \/ role e = ADMIN_ENTRY_TYPE_OBSERVATION \/
    (role e = ADMIN_ENTRY_TYPE_INPUT /\ (dataType e <> dt \/ units e <> u))) ->
   io_CreateInput w path dt u = (w1, LE_DUPLICATE) /\ tree w1 !! k = Some e) /\
  ((role e = ADMIN_ENTRY_TYPE_INPUT \/ role e = ADMIN_ENTRY_TYPE_OBSERVATION \/
    (role e = ADMIN_ENTRY_TYPE_OUTPUT /\ (dataType e <> dt \/ units e <> u))) ->
   io_CreateOutput w path dt u = (w1, LE_DUPLICATE) /\ tree w1 !! k = Some e).
Proof.
  pose proof (GetClientNamespace_lookup _ _ _ _ _ Hg He) as He1.
  assert (Hmis : (dataType e <> dt \/ units e <> u) ->
    (bool_decide (dataType e <> dt) || negb (String.eqb u (units e))) = true).
  { intros [Hd | Hu].
    - rewrite bool_decide_eq_true_2 by exact Hd. reflexivity.
    - destruct (String.eqb_spec u (units e)) as [Heq | Hne];
        [subst; contradiction | apply orb_true_r]. }
  split; intros Hr; (split; [|exact He1]);
    [unfold io_CreateInput | unfold io_CreateOutput];
    rewrite Hg, Hf; simpl; unfold resTree_GetDataType, resTree_GetUnits, get_entry;
    rewrite He1;
    (destruct Hr as [Hr | [Hr | [Hr Hm]]]; rewrite Hr; [reflexivity | reflexivity |];
     rewrite (Hmis Hm); reflexivity).
Qed.


Lemma io_Create_conflict_duplicate_witness :
  io_CreateOutput world_x "x" IO_DATA_TYPE_NUMERIC "m" = (world_x, LE_DUPLICATE) /\
  tree world_x !! ["app"; "sensorApp"; "x"]
    = Some (mkEntry ADMIN_ENTRY_TYPE_INPUT IO_DATA_TYPE_NUMERIC "m" None None [] 0).
Proof.
  apply (proj2 (io_Create_conflict_duplicate world_x world_x ["app"; "sensorApp"]
                  ["app"; "sensorApp"; "x"] "x"
                  (mkEntry ADMIN_ENTRY_TYPE_INPUT IO_DATA_TYPE_NUMERIC "m" None None [] 0)
                  IO_DATA_TYPE_NUMERIC "m" ltac:(vm_compute; reflexivity)
                  ltac:(vm_compute; reflexivity) ltac:(vm_compute; reflexivity))).
  left. reflexivity.
Defined.

Lemma io_CreateInput_existing (w : World) (ns k : key) (path : string) (e : Entry)
    (dt : io_DataType_t) (u : string) :
  ctx w = Some ns -> resTree_FindEntry (tree w) ns path = Some k -> tree w !! k = Some e ->
  role e = ADMIN_ENTRY_TYPE_INPUT -> dataType e = dt -> units e = u ->
  io_CreateInput w path dt u = (w, LE_OK).
Proof.
  intros Hc Hf Hk Hr Hd Hu. unfold io_CreateInput.
  rewrite (GetClientNamespace_cached w ns Hc), Hf. simpl.
  unfold resTree_GetDataType, resTree_GetUnits, get_entry. rewrite Hk, Hr, Hd, Hu.
  rewrite bool_decide_eq_false_2 by (intros H; apply H; reflexivity).
  rewrite String.eqb_refl. reflexivity.
Qed.


Lemma io_CreateInput_conflict (w w1 : World) (ns : key) (path : string) (e : Entry)
    (dt : io_DataType_t) (u : string) :
  GetClientNamespace w = (w1, Some ns) ->
  tree w1 !! (ns ++ segments path) = Some e ->
  (role e = ADMIN_ENTRY_TYPE_OUTPUT \/ role e = ADMIN_ENTRY_TYPE_OBSERVATION \/
   (role e = ADMIN_ENTRY_TYPE_INPUT /\ (dataType e <> dt \/ units e <> u))) ->
  io_CreateInput w path dt u = (w1, LE_DUPLICATE).
Proof.
  intros Hg Hk Hr. unfold io_CreateInput. rewrite Hg.
  unfold resTree_FindEntry. rewrite Hk. simpl. rewrite Hk.
  unfold resTree_GetDataType, resTree_GetUnits, get_entry. rewrite Hk.
  destruct Hr as [Hr | [Hr | [Hr [Hd | Hu]]]]; rewrite Hr; try reflexivity.
  - rewrite bool_decide_eq_true_2 by exact Hd. reflexivity.
  - destruct (String.eqb_spec u (units e)) as [Heq | Hne];
      [subst; contradiction | rewrite orb_true_r; reflexivity].
Qed.

(** C7 (counterexample): where the path holds an Output, io_CreateInput
    returns LE_DUPLICATE, both times. *)
Lemma io_CreateInput_twice_on_output :
  io_CreateInput world_out "x" IO_DATA_TYPE_NUMERIC "m" = (world_out, LE_DUPLICATE) /\
  io_CreateInput (fst (io_CreateInput world_out "x" IO_DATA_TYPE_NUMERIC "m")) "x"
    IO_DATA_TYPE_NUMERIC "m" = (world_out, LE_DUPLICATE).
Proof. vm_compute. split; reflexivity. Qed.

(** C7 (amended): when the client's identity resolves and the path holds no
    entry, a Namespace, a Placeholder or an Input of the same (data type,
    units), two successive io_CreateInput(path, dt, u) both return LE_OK; the
    second changes nothing, and both resolve to the same entry: an Input of
    type dt and units u. When the path holds an Output, an Observation or an
    Input of another (data type, units), both calls return LE_DUPLICATE and
    leave the world as the namespace binding left it. *)
Lemma io_CreateInput_idempotent (w w1 : World) (ns : key) (path : string)
    (dt : io_DataType_t) (u : string)
    (Hg : GetClientNamespace w = (w1, Some ns)) :
  ((forall e, tree w1 !! (ns ++ segments path) = Some e ->
      role e = ADMIN_ENTRY_TYPE_NAMESPACE \/ role e = ADMIN_ENTRY_TYPE_PLACEHOLDER \/
      (role e = ADMIN_ENTRY_TYPE_INPUT /\ dataType e = dt /\ units e = u)) ->
   exists w2,
     io_CreateInput w path dt u = (w2, LE_OK) /\
     io_CreateInput w2 path dt u = (w2, LE_OK) /\
     resTree_FindEntry (tree w2) ns path = Some (ns ++ segments path) /\
     exists e, tree w2 !! (ns ++ segments path) = Some e /\
       role e = ADMIN_ENTRY_TYPE_INPUT /\ dataType e = dt /\ units e = u) /\
  (forall e, tree w1 !! (ns ++ segments path) = Some e ->
     (role e = ADMIN_ENTRY_TYPE_OUTPUT \/ role e = ADMIN_ENTRY_TYPE_OBSERVATION \/
      (role e = ADMIN_ENTRY_TYPE_INPUT /\ (dataType e <> dt \/ units e <> u))) ->
     io_CreateInput w path dt u = (w1, LE_DUPLICATE) /\
     io_CreateInput w1 path dt u = (w1, LE_DUPLICATE)).
Proof.
  pose proof (GetClientNamespace_ctx _ _ _ Hg) as Hc.
  split.
  2:{ intros e Hk Hr. split.
      - exact (io_CreateInput_conflict w w1 ns path e dt u Hg Hk Hr).
      - exact (io_CreateInput_conflict w1 w1 ns path e dt u
                 (GetClientNamespace_cached w1 ns Hc) Hk Hr). }
  intros Hfree.
  set (K := ns ++ segments path) in *.
  assert (Hnew : forall e t',
    exists w2,
      (set_tree (<[K := e]> t') w1, LE_OK) = (w2, LE_OK) /\
      (role e = ADMIN_ENTRY_TYPE_INPUT -> dataType e = dt -> units e = u ->
       io_CreateInput w2 path dt u = (w2, LE_OK) /\
       resTree_FindEntry (tree w2) ns path = Some K /\
       exists e', tree w2 !! K = Some e' /\
         role e' = ADMIN_ENTRY_TYPE_INPUT /\ dataType e' = dt /\ units e' = u)).
  { intros e t'. eexists. split; [reflexivity|]. intros Hr Hd Hu.
    assert (Hf : resTree_FindEntry (<[K := e]> t') ns path = Some K).
    { unfold resTree_FindEntry. fold K. rewrite lookup_insert_eq. reflexivity. }
    split; [|split; [exact Hf|]].
    - apply (io_CreateInput_existing _ ns K path e); simpl; try assumption.
      apply lookup_insert_eq.
    - exists e. simpl. split; [apply lookup_insert_eq|]. auto. }
  unfold io_CreateInput at 1. rewrite Hg.
  unfold resTree_FindEntry at 1. fold K.
  destruct (tree w1 !! K) as [e|] eqn:Hk.
  - destruct (Hfree e eq_refl) as [Hr | [Hr | [Hr [Hd Hu]]]].
    + simpl. rewrite Hk, Hr. simpl.
      unfold resTree_GetInput, resTree_GetIO. fold K. rewrite Hk, Hr.
      destruct (Hnew (set_type dt u (set_role ADMIN_ENTRY_TYPE_INPUT e))
                  (ensure_path (tree w1) ns (removelast (segments path))))
        as [w2 [Heq Hrest]].
      exists w2. split; [exact Heq|]. apply Hrest; reflexivity.
    + simpl. rewrite Hk, Hr. simpl.
      unfold resTree_GetInput, resTree_GetIO. fold K. rewrite Hk, Hr.
      destruct (Hnew (set_type dt u (set_role ADMIN_ENTRY_TYPE_INPUT e))
                  (ensure_path (tree w1) ns (removelast (segments path))))
        as [w2 [Heq Hrest]].
      exists w2. split; [exact Heq|]. apply Hrest; reflexivity.
    + assert (Hf : resTree_FindEntry (tree w1) ns path = Some K).
      { unfold resTree_FindEntry. fold K. rewrite Hk. reflexivity. }
      pose proof (io_CreateInput_existing w1 ns K path e dt u Hc Hf Hk Hr Hd Hu) as Hsame.
      exists w1. split; [|split; [exact Hsame | split; [exact Hf|]]].
      * simpl. rewrite Hk, Hr.
        unfold resTree_GetDataType, resTree_GetUnits, get_entry. rewrite Hk, Hd, Hu.
        rewrite bool_decide_eq_false_2 by (intros H; apply H; reflexivity).
        rewrite String.eqb_refl. reflexivity.
      * exists e. auto.
  - simpl. unfold resTree_GetInput, resTree_GetIO. fold K. rewrite Hk.
    destruct (Hnew (mkEntry ADMIN_ENTRY_TYPE_INPUT dt u None None [] 0)
                (ensure_path (tree w1) ns (removelast (segments path))))
      as [w2 [Heq Hrest]].
    exists w2. split; [exact Heq|]. apply Hrest; reflexivity.
Qed.

Lemma io_CreateInput_idempotent_witness :
  (exists w2,
    io_CreateInput world0 "x" IO_DATA_TYPE_NUMERIC "m" = (w2, LE_OK) /\
    io_CreateInput w2 "x" IO_DATA_TYPE_NUMERIC "m" = (w2, LE_OK) /\
    resTree_FindEntry (tree w2) ["app"; "sensorApp"] "x" = Some ["app"; "sensorApp"; "x"] /\
    exists e, tree w2 !! ["app"; "sensorApp"; "x"] = Some e /\
      role e = ADMIN_ENTRY_TYPE_INPUT /\ dataType e = IO_DATA_TYPE_NUMERIC /\ units e = "m") /\
  (io_CreateInput world_out "x" IO_DATA_TYPE_NUMERIC "m" = (world_out, LE_DUPLICATE) /\
   io_CreateInput world_out "x" IO_DATA_TYPE_NUMERIC "m" = (world_out, LE_DUPLICATE)).
Proof.
  split.
  - apply (proj1 (io_CreateInput_idempotent world0 (fst (GetClientNamespace world0))
                    ["app"; "sensorApp"] "x" IO_DATA_TYPE_NUMERIC "m"
                    ltac:(vm_compute; reflexivity))).
    vm_compute. intros e He. discriminate.
  - apply (proj2 (io_CreateInput_idempotent world_out world_out
                    ["app"; "sensorApp"] "x" IO_DATA_TYPE_NUMERIC "m"
                    ltac:(vm_compute; reflexivity))
             (mkEntry ADMIN_ENTRY_TYPE_OUTPUT IO_DATA_TYPE_NUMERIC "m" None None [] 0)).
    + vm_compute. reflexivity.
    + left. reflexivity.
Defined.

(** ** Entries that are not Inputs or Outputs, seen from the client *)

Lemma prefix_closedb_sound (t : gmap key Entry) : prefix_closedb t = true -> prefix_closed t.
Proof.
  unfold prefix_closedb, prefix_closed. intros H k k' e Hk [rest ->].
  rewrite forallb_forall in H.
  assert (Hin : In (k' ++ rest, e) (map_to_list t)).
  { apply list_elem_of_In. apply elem_of_map_to_list. exact Hk. }
  specialize (H _ Hin). cbv beta in H. rewrite forallb_forall in H.
  assert (Hi : In (length k') (seq 0 (S (length (k' ++ rest))))).
  { apply in_seq. rewrite length_app. lia. }
  specialize (H _ Hi). cbn [fst] in H. rewrite take_app_length in H.
  destruct (t !! k'); [eexists; reflexivity | discriminate].
Qed.

(** C10: in a well-formed tree, when the client's path resolves to an entry
    that is a Namespace, a Placeholder or an Observation, the I/O facade
    treats it as absent: FindResource finds nothing and the namespace binding
    leaves the tree as it is; every io_Push* kills the client and changes
    nothing else; every io_Get* returns LE_NOT_FOUND with its out-parameters
    untouched; io_DeleteResource does nothing. *)
Lemma io_facade_non_io_is_absent (w w1 : World) (ns k : key) (path : string) (e : Entry)
    (Hpc : prefix_closed (tree w))
    (Hg : GetClientNamespace w = (w1, Some ns))
    (Hf : resTree_FindEntry (tree w1) ns path = Some k)
    (He : tree w !! k = Some e)
    (Hi : role e <> ADMIN_ENTRY_TYPE_INPUT)
    (Ho : role e <> ADMIN_ENTRY_TYPE_OUTPUT) :
  FindResource w path = (w1, None) /\ tree w1 = tree w /\
  (forall ts, io_PushTrigger w path ts = kill w1) /\
  (forall ts v, io_PushBoolean w path ts v = kill w1) /\
  (forall ts v, io_PushNumeric w path ts v = kill w1) /\
  (forall ts v, io_PushString w path ts v = kill w1) /\
  (forall ts v, io_PushJson w path ts v = kill w1) /\
  (forall ts, io_GetTimestamp w path ts = (w1, (LE_NOT_FOUND, ts))) /\
  (forall ts v, io_GetBoolean w path ts v = (w1, (LE_NOT_FOUND, ts, v))) /\
  (forall ts v, io_GetNumeric w path ts v = (w1, (LE_NOT_FOUND, ts, v))) /\
  (forall ts v n, io_GetString w path ts v n = (w1, (LE_NOT_FOUND, ts, v))) /\
  (forall fmt ts v n, io_GetJson fmt w path ts v n = (w1, (LE_NOT_FOUND, ts, v))) /\
  io_DeleteResource w path = w1.
Proof.
  pose proof (GetClientNamespace_lookup _ _ _ _ _ Hg He) as He1.
  pose proof (FindResource_other _ _ _ _ _ _ Hg Hf He1 Hi Ho) as Hfr.
  assert (Htree : tree w1 = tree w).
  { apply (GetClientNamespace_tree w w1 ns Hpc Hg).
    destruct (resTree_FindEntry_Some _ _ _ _ Hf) as [Hkey _].
    apply (Hpc k ns e He). exists (segments path). exact Hkey. }
  split; [exact Hfr|]. split; [exact Htree|].
  unfold io_PushTrigger, io_PushBoolean, io_PushNumeric, io_PushString, io_PushJson,
    io_GetTimestamp, io_GetBoolean, io_GetNumeric, io_GetString, io_GetJson,
    io_DeleteResource.
  rewrite Hfr. repeat split.
Qed.


Lemma io_facade_non_io_is_absent_witness :
  io_PushNumeric world_obs_in_ns "o" 1%float 1%float = kill world_obs_in_ns /\
  io_DeleteResource world_obs_in_ns "o" = world_obs_in_ns.
Proof.
  destruct (io_facade_non_io_is_absent world_obs_in_ns world_obs_in_ns ["app"; "sensorApp"]
              ["app"; "sensorApp"; "o"] "o" (obs_entry samples3))
    as [_ [_ [_ [_ [Hnum [_ [_ [_ [_ [_ [_ [_ Hdel]]]]]]]]]]]].
  - apply prefix_closedb_sound. vm_compute. reflexivity.
  - vm_compute. reflexivity.
  - vm_compute. reflexivity.
  - vm_compute. reflexivity.
  - discriminate.
  - discriminate.
  - split; [apply Hnum | exact Hdel].
Defined.

(** ** Default values *)

Lemma resTree_FindEntry_insert (t : gmap key Entry) (base k : key) (path : string)
    (e : Entry) :
  resTree_FindEntry t base path = Some k -> resTree_FindEntry (<[k := e]> t) base path = Some k.
Proof.
  intros Hf. destruct (resTree_FindEntry_Some _ _ _ _ Hf) as [-> _].
  unfold resTree_FindEntry. rewrite lookup_insert_eq. reflexivity.
Qed.

Ltac first_default_call Hfr Hk Hdt Hnodef :=
  rewrite Hfr; unfold resTree_GetDataType, resTree_HasDefault, get_entry, resTree_SetDefault;
  rewrite Hk, Hdt, Hnodef;
  (destruct (decide _) as [Hne|]; [exfalso; apply Hne; reflexivity|]); reflexivity.

Ltac second_default_call Hfr' Hk' Hdt :=
  rewrite Hfr'; unfold resTree_GetDataType, resTree_HasDefault, get_entry;
  rewrite Hk'; simpl; rewrite Hdt;
  (destruct (decide _) as [Hne|]; [exfalso; apply Hne; reflexivity|]); reflexivity.

(** C5: on an Input or Output with no default, the first io_Set*Default of
    the resource's type sets the default (a sample with timestamp 0.0) and
    the second call is a no-op, whatever the current value; while there is
    no current value (no push has occurred), the current value then read is
    that default, with timestamp 0.0, and for a Boolean io_GetBoolean reads
    v1. *)
Lemma io_SetDefault_write_once (w w1 : World) (ns k : key) (path : string) (e : Entry)
    (Hg : GetClientNamespace w = (w1, Some ns))
    (Hf : resTree_FindEntry (tree w1) ns path = Some k)
    (Hk : tree w1 !! k = Some e)
    (Hio : role e = ADMIN_ENTRY_TYPE_INPUT \/ role e = ADMIN_ENTRY_TYPE_OUTPUT)
    (Hnodef : defaultValue e = None) :
  (dataType e = IO_DATA_TYPE_BOOLEAN -> forall v1 v2,
    let w2 := io_SetBooleanDefault w path v1 in
    io_SetBooleanDefault w2 path v2 = w2 /\
    tree w2 !! k = Some (set_default (dataSample_CreateBoolean 0%float v1) e) /\
    killed w2 = killed w /\
    (currentValue e = None ->
     resTree_GetCurrentValue (tree w2) k = Some (dataSample_CreateBoolean 0%float v1) /\
     (forall ts, io_GetTimestamp w2 path ts = (w2, (LE_OK, 0%float))) /\
     (forall ts b, io_GetBoolean w2 path ts b = (w2, (LE_OK, ts, v1))))) /\
  (dataType e = IO_DATA_TYPE_NUMERIC -> forall v1 v2,
    let w2 := io_SetNumericDefault w path v1 in
    io_SetNumericDefault w2 path v2 = w2 /\
    tree w2 !! k = Some (set_default (dataSample_CreateNumeric 0%float v1) e) /\
    killed w2 = killed w /\
    (currentValue e = None ->
     resTree_GetCurrentValue (tree w2) k = Some (dataSample_CreateNumeric 0%float v1) /\
     (forall ts, io_GetTimestamp w2 path ts = (w2, (LE_OK, 0%float))))) /\
  (dataType e = IO_DATA_TYPE_STRING -> forall v1 v2,
    let w2 := io_SetStringDefault w path v1 in
    io_SetStringDefault w2 path v2 = w2 /\
    tree w2 !! k = Some (set_default (dataSample_CreateString 0%float v1) e) /\
    killed w2 = killed w /\
    (currentValue e = None ->
     resTree_GetCurrentValue (tree w2) k = Some (dataSample_CreateString 0%float v1) /\
     (forall ts, io_GetTimestamp w2 path ts = (w2, (LE_OK, 0%float))))) /\
  (dataType e = IO_DATA_TYPE_JSON -> forall v1 v2,
    let w2 := io_SetJsonDefault w path v1 in
    io_SetJsonDefault w2 path v2 = w2 /\
    tree w2 !! k = Some (set_default (dataSample_CreateJson 0%float v1) e) /\
    killed w2 = killed w /\
    (currentValue e = None ->
     resTree_GetCurrentValue (tree w2) k = Some (dataSample_CreateJson 0%float v1) /\
     (forall ts, io_GetTimestamp w2 path ts = (w2, (LE_OK, 0%float))))).
Proof.
  pose proof (GetClientNamespace_ctx _ _ _ Hg) as Hc.
  pose proof (GetClientNamespace_killed _ _ _ Hg) as Hkil.
  pose proof (FindResource_io _ _ _ _ _ _ Hg Hf Hk Hio) as Hfr.
  assert (Hstep : forall s,
    FindResource (set_tree (<[k := set_default s e]> (tree w1)) w1) path
      = (set_tree (<[k := set_default s e]> (tree w1)) w1, Some k) /\
    tree (set_tree (<[k := set_default s e]> (tree w1)) w1) !! k = Some (set_default s e) /\
    (currentValue e = None ->
     resTree_GetCurrentValue (tree (set_tree (<[k := set_default s e]> (tree w1)) w1)) k
       = Some s)).
  { intros s.
    assert (Hk' : tree (set_tree (<[k := set_default s e]> (tree w1)) w1) !! k
                  = Some (set_default s e)) by apply lookup_insert_eq.
    split; [|split; [exact Hk'|]].
    - apply (FindResource_io _ _ ns _ _ (set_default s e)); [| |exact Hk'|exact Hio].
      + apply GetClientNamespace_cached. exact Hc.
      + apply resTree_FindEntry_insert. exact Hf.
    - intros Hnocur.
      unfold resTree_GetCurrentValue, get_entry. rewrite Hk'. simpl. rewrite Hnocur.
      reflexivity. }
  assert (Hts : forall s, timestamp s = 0%float -> currentValue e = None -> forall ts,
    io_GetTimestamp (set_tree (<[k := set_default s e]> (tree w1)) w1) path ts
      = (set_tree (<[k := set_default s e]> (tree w1)) w1, (LE_OK, 0%float))).
  { intros s Hs Hnocur ts. destruct (Hstep s) as [Hfr' [_ Hcv]].
    unfold io_GetTimestamp. rewrite Hfr', (Hcv Hnocur). simpl.
    unfold dataSample_GetTimestamp. rewrite Hs. reflexivity. }
  split; [|split; [|split]]; intros Hdt v1 v2.
  - assert (H1 : io_SetBooleanDefault w path v1 = set_tree (<[k := set_default
                   (dataSample_CreateBoolean 0%float v1) e]> (tree w1)) w1).
    { unfold io_SetBooleanDefault. first_default_call Hfr Hk Hdt Hnodef. }
    cbv zeta. rewrite H1.
    destruct (Hstep (dataSample_CreateBoolean 0%float v1)) as [Hfr' [Hk' Hcv]].
    split; [unfold io_SetBooleanDefault; second_default_call Hfr' Hk' Hdt|].
    split; [exact Hk'|]. split; [exact Hkil|]. intros Hnocur.
    split; [exact (Hcv Hnocur)|].
    split; [apply Hts; [reflexivity|exact Hnocur]|].
    intros ts b. unfold io_GetBoolean. rewrite Hfr'. unfold GetCurrentValue.
    destruct (decide _) as [Hne|];
      [exfalso; apply Hne; unfold resTree_GetDataType, get_entry; rewrite Hk'; exact Hdt|].
    rewrite (Hcv Hnocur). reflexivity.
  - assert (H1 : io_SetNumericDefault w path v1 = set_tree (<[k := set_default
                   (dataSample_CreateNumeric 0%float v1) e]> (tree w1)) w1).
    { unfold io_SetNumericDefault. first_default_call Hfr Hk Hdt Hnodef. }
    cbv zeta. rewrite H1.
    destruct (Hstep (dataSample_CreateNumeric 0%float v1)) as [Hfr' [Hk' Hcv]].
    split; [unfold io_SetNumericDefault; second_default_call Hfr' Hk' Hdt|].
    split; [exact Hk'|]. split; [exact Hkil|]. intros Hnocur.
    split; [exact (Hcv Hnocur)|]. apply Hts; [reflexivity|exact Hnocur].
  - assert (H1 : io_SetStringDefault w path v1 = set_tree (<[k := set_default
                   (dataSample_CreateString 0%float v1) e]> (tree w1)) w1).
    { unfold io_SetStringDefault. first_default_call Hfr Hk Hdt Hnodef. }
    cbv zeta. rewrite H1.
    destruct (Hstep (dataSample_CreateString 0%float v1)) as [Hfr' [Hk' Hcv]].
    split; [unfold io_SetStringDefault; second_default_call Hfr' Hk' Hdt|].
    split; [exact Hk'|]. split; [exact Hkil|]. intros Hnocur.
    split; [exact (Hcv Hnocur)|]. apply Hts; [reflexivity|exact Hnocur].
  - assert (H1 : io_SetJsonDefault w path v1 = set_tree (<[k := set_default
                   (dataSample_CreateJson 0%float v1) e]> (tree w1)) w1).
    { unfold io_SetJsonDefault. first_default_call Hfr Hk Hdt Hnodef. }
    cbv zeta. rewrite H1.
    destruct (Hstep (dataSample_CreateJson 0%float v1)) as [Hfr' [Hk' Hcv]].
    split; [unfold io_SetJsonDefault; second_default_call Hfr' Hk' Hdt|].
    split; [exact Hk'|]. split; [exact Hkil|]. intros Hnocur.
    split; [exact (Hcv Hnocur)|]. apply Hts; [reflexivity|exact Hnocur].
Qed.

Lemma io_SetDefault_write_once_witness :
  io_SetBooleanDefault (io_SetBooleanDefault world_y "y" true) "y" false
    = io_SetBooleanDefault world_y "y" true /\
  io_GetTimestamp (io_SetBooleanDefault world_y "y" true) "y" 7%float
    = (io_SetBooleanDefault world_y "y" true, (LE_OK, 0%float)).
Proof.
  destruct (io_SetDefault_write_once world_y world_y ["app"; "sensorApp"]
              ["app"; "sensorApp"; "y"] "y"
              (mkEntry ADMIN_ENTRY_TYPE_OUTPUT IO_DATA_TYPE_BOOLEAN "" None None [] 0))
    as [Hb _].
  - vm_compute. reflexivity.
  - vm_compute. reflexivity.
  - vm_compute. reflexivity.
  - right. reflexivity.
  - reflexivity.
  - destruct (Hb eq_refl true false) as [H2 [_ [_ Hrd]]].
    destruct (Hrd eq_refl) as [_ [Hts _]].
    split; [exact H2 | apply Hts].
Defined.

(** ** Fetch of the wrong kind *)

(** C6: the query facade's getters return LE_FORMAT_ERROR, out-parameters
    untouched, for a resource holding a current value of another data type;
    the I/O facade's getters, on an Input or Output of another data type,
    kill the client (and return the meaningless LE_UNAVAILABLE, never
    LE_FORMAT_ERROR). *)
Lemma wrong_kind_fetch :
  (forall (t : gmap key Entry) (path : string) (k : key) (s : dataSample) (ts : float),
     resTree_FindEntryAtAbsolutePath t path = Some k -> resTree_IsResource t k = true ->
     resTree_GetCurrentValue t k = Some s ->
     (resTree_GetDataType t k <> IO_DATA_TYPE_BOOLEAN ->
        forall v, query_GetBoolean t path ts v = (LE_FORMAT_ERROR, ts, v)) /\
     (resTree_GetDataType t k <> IO_DATA_TYPE_NUMERIC ->
        forall v, query_GetNumeric t path ts v = (LE_FORMAT_ERROR, ts, v)) /\
     (resTree_GetDataType t k <> IO_DATA_TYPE_STRING ->
        forall v n, query_GetString t path ts v n = (LE_FORMAT_ERROR, ts, v))) /\
  (forall (w w1 : World) (path : string) (k : key) (ts : float),
     FindResource w path = (w1, Some k) ->
     (resTree_GetDataType (tree w1) k <> IO_DATA_TYPE_BOOLEAN ->
        forall v, io_GetBoolean w path ts v = (kill w1, (LE_UNAVAILABLE, ts, v))) /\
     (resTree_GetDataType (tree w1) k <> IO_DATA_TYPE_NUMERIC ->
        forall v, io_GetNumeric w path ts v = (kill w1, (LE_UNAVAILABLE, ts, v))) /\
     (resTree_GetDataType (tree w1) k <> IO_DATA_TYPE_STRING ->
        forall v n, io_GetString w path ts v n = (kill w1, (LE_UNAVAILABLE, ts, v)))).
Proof.
  split.
  - intros t path k s ts Hf Hres Hcv.
    unfold query_GetBoolean, query_GetNumeric, query_GetString.
    rewrite Hf, Hres, Hcv. simpl.
    split; [|split]; intros Hne; intros;
      (destruct (decide _) as [_|Heq]; [reflexivity | contradiction]).
  - intros w w1 path k ts Hfr.
    unfold io_GetBoolean, io_GetNumeric, io_GetString, GetCurrentValue. rewrite Hfr.
    split; [|split]; intros Hne; intros;
      (destruct (decide _) as [_|Heq]; [reflexivity | contradiction]).
Qed.

Lemma wrong_kind_fetch_witness :
  query_GetBoolean (tree world_x_pushed) "/app/sensorApp/x" 0%float false
    = (LE_FORMAT_ERROR, 0%float, false) /\
  io_GetBoolean world_x_pushed "x" 0%float false
    = (kill world_x_pushed, (LE_UNAVAILABLE, 0%float, false)).
Proof.
  split.
  - apply (proj1 (proj1 wrong_kind_fetch (tree world_x_pushed) "/app/sensorApp/x"
                   ["app"; "sensorApp"; "x"] (dataSample_CreateNumeric 5%float 1%float) 0%float
                   ltac:(vm_compute; reflexivity) ltac:(vm_compute; reflexivity)
                   ltac:(vm_compute; reflexivity))).
    vm_compute. discriminate.
  - apply (proj1 (proj2 wrong_kind_fetch world_x_pushed world_x_pushed "x"
                   ["app"; "sensorApp"; "x"] 0%float ltac:(vm_compute; reflexivity))).
    vm_compute. discriminate.
Defined.

(** ** JSON fetch of any kind *)

Lemma le_utf8_Copy_result (src : string) (size : nat) :
  (le_utf8_Copy src size).1 = LE_OK \/ (le_utf8_Copy src size).1 = LE_OVERFLOW.
Proof. unfold le_utf8_Copy. destruct (Nat.ltb _ _); [left | right]; reflexivity. Qed.

(** C8: query_GetJson never returns LE_FORMAT_ERROR; on a resource with a
    current value it returns LE_OK or LE_OVERFLOW, the value's timestamp
    and the JSON projection of the value read as the resource's data type,
    whatever that type. *)
Lemma query_GetJson_any_kind (format_double : float -> string) :
  (forall (t : gmap key Entry) path ts v n,
     (query_GetJson format_double t path ts v n).1.1 <> LE_FORMAT_ERROR) /\
  (forall (t : gmap key Entry) path k s ts v n,
     resTree_FindEntryAtAbsolutePath t path = Some k -> resTree_IsResource t k = true ->
     resTree_GetCurrentValue t k = Some s ->
     let proj := dataSample_ConvertToJson format_double s (resTree_GetDataType t k) n in
     query_GetJson format_double t path ts v n = (proj.1, dataSample_GetTimestamp s, proj.2) /\
     (proj.1 = LE_OK \/ proj.1 = LE_OVERFLOW)).
Proof.
  assert (Hjson : forall (t : gmap key Entry) path k s ts v n,
     resTree_FindEntryAtAbsolutePath t path = Some k -> resTree_IsResource t k = true ->
     resTree_GetCurrentValue t k = Some s ->
     query_GetJson format_double t path ts v n
       = ((dataSample_ConvertToJson format_double s (resTree_GetDataType t k) n).1,
          dataSample_GetTimestamp s,
          (dataSample_ConvertToJson format_double s (resTree_GetDataType t k) n).2)).
  { intros t path k s ts v n Hf Hres Hcv. unfold query_GetJson.
    rewrite Hf, Hres, Hcv. simpl.
    destruct (decide _) as [Hj|Hj].
    - rewrite Hj. unfold dataSample_ConvertToJson.
      destruct (le_utf8_Copy (dataSample_GetJson s) n); reflexivity.
    - destruct (dataSample_ConvertToJson format_double s (resTree_GetDataType t k) n);
        reflexivity. }
  split.
  - intros t path ts v n.
    destruct (resTree_FindEntryAtAbsolutePath t path) as [k|] eqn:Hf;
      [|unfold query_GetJson; rewrite Hf; discriminate].
    destruct (resTree_IsResource t k) eqn:Hres;
      [|unfold query_GetJson; rewrite Hf, Hres; discriminate].
    destruct (resTree_GetCurrentValue t k) as [s|] eqn:Hcv;
      [|unfold query_GetJson; rewrite Hf, Hres, Hcv; discriminate].
    rewrite (Hjson t path k s ts v n Hf Hres Hcv). simpl.
    unfold dataSample_ConvertToJson.
    destruct (le_utf8_Copy_result
                match resTree_GetDataType t k with
                | IO_DATA_TYPE_TRIGGER => "null"
                | IO_DATA_TYPE_BOOLEAN => if dataSample_GetBoolean s then "true" else "false"
                | IO_DATA_TYPE_NUMERIC => format_double (dataSample_GetNumeric s)
                | IO_DATA_TYPE_STRING =>
                    String quote_char (json_escape (dataSample_GetString s)
                                      ++ String quote_char EmptyString)%string
                | IO_DATA_TYPE_JSON => dataSample_GetJson s
                end n) as [-> | ->]; discriminate.
  - intros t path k s ts v n Hf Hres Hcv proj. split.
    + exact (Hjson t path k s ts v n Hf Hres Hcv).
    + apply le_utf8_Copy_result.
Qed.

Lemma query_GetJson_any_kind_witness :
  query_GetJson (fun _ => "1") (tree world_x_pushed) "/app/sensorApp/x" 0%float "" 8
    = (LE_OK, 5%float, "1").
Proof.
  destruct (proj2 (query_GetJson_any_kind (fun _ => "1")) (tree world_x_pushed)
              "/app/sensorApp/x" ["app"; "sensorApp"; "x"]
              (dataSample_CreateNumeric 5%float 1%float) 0%float "" 8
              ltac:(vm_compute; reflexivity) ltac:(vm_compute; reflexivity)
              ltac:(vm_compute; reflexivity)) as [H _].
  rewrite H. vm_compute. reflexivity.
Defined.

(** * Further properties of the code *)

(** ** Query facade: units, relative paths and namespaces *)

(** X2: a path that does not start with [/] is not found by any of the
    query getters (data type, units, timestamp, Boolean, numeric, string,
    JSON): LE_NOT_FOUND, out-parameters untouched. *)
Lemma query_relative_path_not_found (fd : float -> string) (t : gmap key Entry)
    (path : string) :
  is_absolute path = false ->
  (forall d, query_GetDataType t path d = (LE_NOT_FOUND, d)) /\
  (forall u n, query_GetUnits t path u n = (LE_NOT_FOUND, u)) /\
  (forall ts, query_GetTimestamp t path ts = (LE_NOT_FOUND, ts)) /\
  (forall ts b, query_GetBoolean t path ts b = (LE_NOT_FOUND, ts, b)) /\
  (forall ts x, query_GetNumeric t path ts x = (LE_NOT_FOUND, ts, x)) /\
  (forall ts s n, query_GetString t path ts s n = (LE_NOT_FOUND, ts, s)) /\
  (forall ts s n, query_GetJson fd t path ts s n = (LE_NOT_FOUND, ts, s)).
Proof.
  intros Ha.
  assert (H : resTree_FindEntryAtAbsolutePath t path = None).
  { unfold resTree_FindEntryAtAbsolutePath. rewrite Ha. reflexivity. }
  unfold query_GetDataType, query_GetUnits, query_GetTimestamp, query_GetBoolean,
    query_GetNumeric, query_GetString, query_GetJson.
  rewrite H. repeat split.
Qed.

(** X3: an absolute path to a Namespace gives LE_UNSUPPORTED from every
    query getter, out-parameters untouched. *)
Lemma query_namespace_unsupported (fd : float -> string) (t : gmap key Entry)
    (path : string) (k : key) (e : Entry) :
  resTree_FindEntryAtAbsolutePath t path = Some k ->
  t !! k = Some e -> role e = ADMIN_ENTRY_TYPE_NAMESPACE ->
  (forall d, query_GetDataType t path d = (LE_UNSUPPORTED, d)) /\
  (forall u n, query_GetUnits t path u n = (LE_UNSUPPORTED, u)) /\
  (forall ts, query_GetTimestamp t path ts = (LE_UNSUPPORTED, ts)) /\
  (forall ts b, query_GetBoolean t path ts b = (LE_UNSUPPORTED, ts, b)) /\
  (forall ts x, query_GetNumeric t path ts x = (LE_UNSUPPORTED, ts, x)) /\
  (forall ts s n, query_GetString t path ts s n = (LE_UNSUPPORTED, ts, s)) /\
  (forall ts s n, query_GetJson fd t path ts s n = (LE_UNSUPPORTED, ts, s)).
Proof.
  intros Hf Hk Hr.
  assert (H : resTree_IsResource t k = false).
  { unfold resTree_IsResource, get_entry. rewrite Hk, Hr. reflexivity. }
  unfold query_GetDataType, query_GetUnits, query_GetTimestamp, query_GetBoolean,
    query_GetNumeric, query_GetString, query_GetJson.
  rewrite Hf, H. repeat split.
Qed.

(** ** Observation lookup: relative paths *)

Lemma segments_obs_prefix (p : string) : segments ("/obs/" ++ p) = "obs" :: segments p.
Proof. unfold segments. cbn. reflexivity. Qed.

Lemma prefix_append_self (s p : string) : String.prefix s (s ++ p) = true.
Proof.
  induction s as [|c s IH]; simpl; [destruct p; reflexivity|].
  destruct (ascii_dec c c); [exact IH | contradiction].
Qed.

(** X5: when /obs exists, a relative path p names the same Observation as
    the absolute path "/obs/" ++ p. *)
Lemma FindObservation_relative (t : gmap key Entry) (p : string) :
  is_absolute p = false -> is_Some (t !! ["obs"]) ->
  FindObservation t p = FindObservation t ("/obs/" ++ p).
Proof.
  intros Ha [eo Heo]. unfold FindObservation.
  assert (Hpre : String.prefix "/obs/" p = false).
  { destruct p as [|c p']; [reflexivity|]. cbn [String.prefix].
    destruct (ascii_dec "/" c) as [<-|]; [discriminate|reflexivity]. }
  assert (Hobs : resTree_FindEntry t [] "obs" = Some ["obs"]).
  { unfold resTree_FindEntry. vm_compute (segments "obs"). simpl. rewrite Heo. reflexivity. }
  assert (Hp2 : String.prefix "/obs/" ("/obs/" ++ p) = true) by apply prefix_append_self.
  assert (Hf2 : resTree_FindEntry t [] ("/obs/" ++ p) = resTree_FindEntry t ["obs"] p).
  { unfold resTree_FindEntry. rewrite segments_obs_prefix. reflexivity. }
  rewrite Hpre, Ha, Hobs, Hp2, Hf2. reflexivity.
Qed.

(** ** Namespace binding *)

Lemma ensure_path_present (segs : list string) :
  forall (t : gmap key Entry) (base : key),
  is_Some (t !! base) -> is_Some (ensure_path t base segs !! (base ++ segs)).
Proof.
  induction segs as [|s rest IH]; intros t base Hb; simpl.
  - rewrite app_nil_r. exact Hb.
  - replace (base ++ s :: rest) with ((base ++ [s]) ++ rest)
      by (rewrite <- app_assoc; reflexivity).
    apply IH. unfold ensure_ns. destruct (t !! (base ++ [s])) eqn:H.
    + rewrite H. eexists; reflexivity.
    + rewrite lookup_insert_eq. eexists; reflexivity.
Qed.

Lemma GetClientNamespace_now (w w1 : World) (o : option key) :
  GetClientNamespace w = (w1, o) -> now w1 = now w.
Proof.
  unfold GetClientNamespace. intros Hg.
  destruct (ctx w); [injection Hg as <- _; reflexivity|].
  destruct (app_name w); injection Hg as <- _; reflexivity.
Qed.

(** X6: once GetClientNamespace has bound the client, the namespace is
    cached in the session and a second call returns it without change; a
    first binding is /app/<app name>, and /app and it exist afterwards. *)
Lemma GetClientNamespace_session (w w1 : World) (ns : key) :
  GetClientNamespace w = (w1, Some ns) ->
  ctx w1 = Some ns /\ GetClientNamespace w1 = (w1, Some ns) /\
  (ctx w = None ->
   exists a, app_name w = Some a /\ ns = "app" :: segments a /\
             is_Some (tree w1 !! ["app"]) /\ is_Some (tree w1 !! ns)).
Proof.
  intros Hg.
  assert (Hc : ctx w1 = Some ns) by (exact (GetClientNamespace_ctx _ _ _ Hg)).
  split; [exact Hc|]. split; [unfold GetClientNamespace; rewrite Hc; reflexivity|].
  intros Hn. unfold GetClientNamespace in Hg. rewrite Hn in Hg.
  destruct (app_name w) as [a|]; [|discriminate].
  injection Hg as <- <-. rewrite segments_app_ns. exists a. simpl.
  split; [reflexivity|]. split; [reflexivity|].
  assert (H0 : is_Some (ensure_ns (tree w) ["app"] !! ["app"])).
  { unfold ensure_ns. destruct (tree w !! ["app"]) eqn:H.
    - rewrite H. eexists; reflexivity.
    - rewrite lookup_insert_eq. eexists; reflexivity. }
  split.
  - destruct H0 as [e He]. eexists. apply ensure_path_lookup. exact He.
  - exact (ensure_path_present (segments a) _ ["app"] H0).
Qed.

(** X7: a client with no cached namespace whose app name cannot be found
    is killed by every push, default setter, push-handler registration and
    mark-optional, and every getter returns LE_NOT_FOUND; the tree is left
    as it is. *)
Lemma unidentified_client (fd : float -> string) (w : World) (path : string) :
  ctx w = None -> app_name w = None ->
  FindResource w path = (kill w, None) /\ tree (kill w) = tree w /\
  (forall ts, io_PushTrigger w path ts = kill w) /\
  (forall ts v, io_PushBoolean w path ts v = kill w) /\
  (forall ts v, io_PushNumeric w path ts v = kill w) /\
  (forall ts v, io_PushString w path ts v = kill w) /\
  (forall ts v, io_PushJson w path ts v = kill w) /\
  (forall v, io_SetBooleanDefault w path v = kill w) /\
  (forall v, io_SetNumericDefault w path v = kill w) /\
  (forall v, io_SetStringDefault w path v = kill w) /\
  (forall v, io_SetJsonDefault w path v = kill w) /\
  (forall ts, io_GetTimestamp w path ts = (kill w, (LE_NOT_FOUND, ts))) /\
  (forall ts v, io_GetBoolean w path ts v = (kill w, (LE_NOT_FOUND, ts, v))) /\
  (forall ts v, io_GetNumeric w path ts v = (kill w, (LE_NOT_FOUND, ts, v))) /\
  (forall ts v n, io_GetString w path ts v n = (kill w, (LE_NOT_FOUND, ts, v))) /\
  (forall ts v n, io_GetJson fd w path ts v n = (kill w, (LE_NOT_FOUND, ts, v))) /\
  (forall hs dt cb c, AddPushHandler w hs path dt cb c = (kill w, hs, None)) /\
  (forall opt, io_MarkOptional w opt path = (kill w, opt)).
Proof.
  intros Hc Ha.
  assert (Hg : GetClientNamespace w = (kill w, None)).
  { unfold GetClientNamespace. rewrite Hc, Ha. reflexivity. }
  assert (Hf : FindResource w path = (kill w, None)).
  { unfold FindResource. rewrite Hg. reflexivity. }
  unfold io_PushTrigger, io_PushBoolean, io_PushNumeric, io_PushString, io_PushJson,
    io_SetBooleanDefault, io_SetNumericDefault, io_SetStringDefault, io_SetJsonDefault,
    io_GetTimestamp, io_GetBoolean, io_GetNumeric, io_GetString, io_GetJson,
    io_MarkOptional, AddPushHandler.
  rewrite Hf, Hg. repeat split; reflexivity.
Qed.

(** ** Creation and deletion *)

Lemma FindResource_Some (w w1 : World) (path : string) (k : key) :
  FindResource w path = (w1, Some k) ->
  exists ns e, GetClientNamespace w = (w1, Some ns) /\
    resTree_FindEntry (tree w1) ns path = Some k /\ tree w1 !! k = Some e /\
    (role e = ADMIN_ENTRY_TYPE_INPUT \/ role e = ADMIN_ENTRY_TYPE_OUTPUT).
Proof.
  unfold FindResource. destruct (GetClientNamespace w) as [w1' [n|]] eqn:Hg.
  - destruct (resTree_FindEntry (tree w1') n path) as [k'|] eqn:Hf; simpl;
      [|discriminate].
    destruct (tree w1' !! k') as [e|] eqn:Hk; [|discriminate].
    destruct (role e) eqn:Hr; try discriminate; intros [= <- <-]; exists n, e; auto.
  - discriminate.
Qed.

Lemma FindResource_world (w w1 : World) (path : string) (r : option key) :
  FindResource w path = (w1, r) -> (GetClientNamespace w).1 = w1.
Proof.
  unfold FindResource. destruct (GetClientNamespace w) as [w1' o].
  destruct (resTree_GetEntryType _ _) as [[]|]; intros [= <- _]; reflexivity.
Qed.

Lemma resTree_GetIO_frame (r : admin_EntryType_t) (t t2 : gmap key Entry) (base k0 : key)
    (path : string) (dt : io_DataType_t) (u : string) :
  resTree_GetIO r t base path dt u = Some (t2, k0) ->
  forall k e, k <> base ++ segments path -> t !! k = Some e -> t2 !! k = Some e.
Proof.
  unfold resTree_GetIO. intros H k e Hne Hk.
  destruct (t !! (base ++ segments path)) as [e0|] eqn:H0.
  - destruct (role e0); try (destruct (decide _); [|discriminate]);
      injection H as <- _;
      try (rewrite lookup_insert_ne; [|congruence]); apply ensure_path_lookup; exact Hk.
  - injection H as <- _. rewrite lookup_insert_ne; [|congruence].
    apply ensure_path_lookup; exact Hk.
Qed.

(** X8: io_CreateInput and io_CreateOutput change no entry other than the
    one at the created path: every other existing entry is kept. *)
Lemma io_Create_frame (w w1 : World) (ns : key) (path : string) (dt : io_DataType_t)
    (u : string) :
  GetClientNamespace w = (w1, Some ns) ->
  (forall k e, k <> ns ++ segments path -> tree w !! k = Some e ->
     tree (io_CreateInput w path dt u).1 !! k = Some e) /\
  (forall k e, k <> ns ++ segments path -> tree w !! k = Some e ->
     tree (io_CreateOutput w path dt u).1 !! k = Some e).
Proof.
  intros Hg. split; intros k e Hne Hk;
    pose proof (GetClientNamespace_lookup _ _ _ _ _ Hg Hk) as Hk1;
    unfold io_CreateInput, io_CreateOutput; rewrite Hg;
    repeat case_match; simplify_eq; simpl; try exact Hk1;
    eapply resTree_GetIO_frame; eauto.
Qed.

(** X9: io_CreateInput on a free path returns LE_OK; the query facade then
    sees an entry of the given data type and units at the absolute path,
    and both facades report it has no value (LE_UNAVAILABLE). *)
Lemma io_CreateInput_fresh (w w1 : World) (ns : key) (path absPath : string)
    (dt : io_DataType_t) (u : string) :
  GetClientNamespace w = (w1, Some ns) -> tree w1 !! (ns ++ segments path) = None ->
  is_absolute absPath = true -> segments absPath = ns ++ segments path ->
  let '(w', r) := io_CreateInput w path dt u in
  r = LE_OK /\ killed w' = killed w /\
  (forall d, query_GetDataType (tree w') absPath d = (LE_OK, dt)) /\
  (forall uo n, query_GetUnits (tree w') absPath uo n = le_utf8_Copy u n) /\
  (forall ts, query_GetTimestamp (tree w') absPath ts = (LE_UNAVAILABLE, ts)) /\
  (forall ts, io_GetTimestamp w' path ts = (w', (LE_UNAVAILABLE, ts))).
Proof.
  intros Hg Hnone Habs Hseg.
  set (k := ns ++ segments path) in *.
  set (E := mkEntry ADMIN_ENTRY_TYPE_INPUT dt u None None [] 0).
  set (T := <[k := E]> (ensure_path (tree w1) ns (removelast (segments path)))).
  assert (Hcr : io_CreateInput w path dt u = (set_tree T w1, LE_OK)).
  { unfold io_CreateInput. rewrite Hg.
    assert (Hf : resTree_FindEntry (tree w1) ns path = None).
    { unfold resTree_FindEntry. fold k. rewrite Hnone. reflexivity. }
    rewrite Hf. unfold resTree_GetInput, resTree_GetIO. fold k. rewrite Hnone. reflexivity. }
  rewrite Hcr.
  assert (HT : T !! k = Some E) by (apply lookup_insert_eq).
  assert (Habs' : resTree_FindEntryAtAbsolutePath T absPath = Some k).
  { unfold resTree_FindEntryAtAbsolutePath, resTree_FindEntry. rewrite Habs. simpl.
    rewrite Hseg. fold k. rewrite HT. reflexivity. }
  assert (Hres : resTree_IsResource T k = true).
  { unfold resTree_IsResource, get_entry. rewrite HT. reflexivity. }
  assert (Hcv : resTree_GetCurrentValue T k = None).
  { unfold resTree_GetCurrentValue, get_entry. rewrite HT. reflexivity. }
  assert (Hc : ctx (set_tree T w1) = Some ns) by (exact (GetClientNamespace_ctx _ _ _ Hg)).
  assert (Hfr : FindResource (set_tree T w1) path = (set_tree T w1, Some k)).
  { unfold FindResource, GetClientNamespace. rewrite Hc.
    unfold resTree_FindEntry. simpl. fold k. rewrite HT. simpl. rewrite HT. reflexivity. }
  split; [reflexivity|]. split; [exact (GetClientNamespace_killed _ _ _ Hg)|].
  split; [intros d; unfold query_GetDataType; simpl; rewrite Habs', Hres; simpl;
          unfold resTree_GetDataType, get_entry; rewrite HT; reflexivity|].
  split; [intros uo n; unfold query_GetUnits; simpl; rewrite Habs', Hres;
          unfold resTree_GetUnits, get_entry; rewrite HT; reflexivity|].
  split; [intros ts; unfold query_GetTimestamp; simpl; rewrite Habs', Hres, Hcv; reflexivity|].
  intros ts. unfold io_GetTimestamp. rewrite Hfr. simpl. rewrite Hcv. reflexivity.
Qed.

(** X10: io_CreateOutput on a free path returns LE_OK and makes an Output
    that FindResource finds; repeating the call returns LE_OK and changes
    nothing. *)
Lemma io_CreateOutput_twice (w w1 : World) (ns : key) (path : string)
    (dt : io_DataType_t) (u : string) :
  GetClientNamespace w = (w1, Some ns) -> tree w1 !! (ns ++ segments path) = None ->
  let '(w', r) := io_CreateOutput w path dt u in
  r = LE_OK /\ io_CreateOutput w' path dt u = (w', LE_OK) /\
  FindResource w' path = (w', Some (ns ++ segments path)) /\
  resTree_GetEntryType (tree w') (Some (ns ++ segments path)) = Some ADMIN_ENTRY_TYPE_OUTPUT.
Proof.
  intros Hg Hnone.
  set (k := ns ++ segments path) in *.
  set (E := mkEntry ADMIN_ENTRY_TYPE_OUTPUT dt u None None [] 0).
  set (T := <[k := E]> (ensure_path (tree w1) ns (removelast (segments path)))).
  assert (Hcr : io_CreateOutput w path dt u = (set_tree T w1, LE_OK)).
  { unfold io_CreateOutput. rewrite Hg.
    assert (Hf : resTree_FindEntry (tree w1) ns path = None).
    { unfold resTree_FindEntry. fold k. rewrite Hnone. reflexivity. }
    rewrite Hf. unfold resTree_GetOutput, resTree_GetIO. fold k. rewrite Hnone. reflexivity. }
  rewrite Hcr.
  assert (HT : T !! k = Some E) by (apply lookup_insert_eq).
  assert (Hc : ctx (set_tree T w1) = Some ns) by (exact (GetClientNamespace_ctx _ _ _ Hg)).
  assert (Hg' : GetClientNamespace (set_tree T w1) = (set_tree T w1, Some ns)).
  { unfold GetClientNamespace. rewrite Hc. reflexivity. }
  assert (Hf' : resTree_FindEntry T ns path = Some k).
  { unfold resTree_FindEntry. fold k. rewrite HT. reflexivity. }
  split; [reflexivity|]. split.
  - unfold io_CreateOutput. rewrite Hg'. simpl. rewrite Hf'. simpl. rewrite HT. simpl.
    unfold resTree_GetDataType, resTree_GetUnits, get_entry. rewrite HT. simpl.
    rewrite bool_decide_false by congruence. rewrite String.eqb_refl. reflexivity.
  - split.
    + unfold FindResource. rewrite Hg'. simpl. rewrite Hf'. simpl. rewrite HT. reflexivity.
    + simpl. fold k. rewrite HT. reflexivity.
Qed.

Lemma prune_namespaces_none (fuel : nat) :
  forall (t : gmap key Entry) (k k' : key),
  t !! k' = None -> prune_namespaces t k fuel !! k' = None.
Proof.
  induction fuel as [|fuel IH]; intros t k k' H; simpl; [exact H|].
  destruct (t !! k) as [e|]; [|exact H].
  destruct (_ && _ && _); [|exact H].
  apply IH. rewrite lookup_delete_None. right. exact H.
Qed.

(** X11: after io_DeleteResource of an Input or Output the path no longer
    names one: FindResource fails, io_GetTimestamp returns LE_NOT_FOUND,
    a push kills the client, and deleting again does nothing. *)
Lemma io_DeleteResource_removes (w w1 : World) (path : string) (k : key) :
  FindResource w path = (w1, Some k) ->
  let w2 := io_DeleteResource w path in
  w2 = set_tree (resTree_DeleteIO (tree w1) k) w1 /\
  FindResource w2 path = (w2, None) /\
  (forall ts, io_GetTimestamp w2 path ts = (w2, (LE_NOT_FOUND, ts))) /\
  (forall ts v, io_PushNumeric w2 path ts v = kill w2) /\
  io_DeleteResource w2 path = w2.
Proof.
  intros Hfr w2.
  assert (Hw2 : w2 = set_tree (resTree_DeleteIO (tree w1) k) w1).
  { subst w2. unfold io_DeleteResource. rewrite Hfr. reflexivity. }
  destruct (FindResource_Some _ _ _ _ Hfr) as (ns & e & Hg & Hf & Hk & Hr).
  destruct (resTree_FindEntry_Some _ _ _ _ Hf) as [Hkey _].
  assert (Hc : ctx w2 = Some ns) by (rewrite Hw2; exact (GetClientNamespace_ctx _ _ _ Hg)).
  assert (Hfr2 : FindResource w2 path = (w2, None)).
  { unfold FindResource, GetClientNamespace. rewrite Hc. unfold resTree_FindEntry.
    rewrite <- Hkey. rewrite Hw2. simpl. unfold resTree_DeleteIO. rewrite Hk.
    destruct (has_children (tree w1) k).
    - rewrite lookup_insert_eq. simpl. rewrite lookup_insert_eq. reflexivity.
    - rewrite prune_namespaces_none; [reflexivity|]. apply lookup_delete_eq. }
  split; [exact Hw2|]. split; [exact Hfr2|].
  split; [intros ts; unfold io_GetTimestamp; rewrite Hfr2; reflexivity|].
  split; [intros ts v; unfold io_PushNumeric; rewrite Hfr2; reflexivity|].
  unfold io_DeleteResource at 1. rewrite Hfr2. reflexivity.
Qed.

(** ** Defaults and getters *)

(** X12: every io_Set*Default kills the client and sets no default when the
    path is not an Input or Output of the client, or when the resource has
    another data type: the result is the world left by FindResource (which
    may have bound the client's namespace), with the client killed. *)
Lemma io_SetDefault_contract (w w1 : World) (path : string) :
  (FindResource w path = (w1, None) ->
     (forall v, io_SetBooleanDefault w path v = kill w1) /\
     (forall v, io_SetNumericDefault w path v = kill w1) /\
     (forall v, io_SetStringDefault w path v = kill w1) /\
     (forall v, io_SetJsonDefault w path v = kill w1)) /\
  (forall k, FindResource w path = (w1, Some k) ->
     (resTree_GetDataType (tree w1) k <> IO_DATA_TYPE_BOOLEAN ->
        forall v, io_SetBooleanDefault w path v = kill w1) /\
     (resTree_GetDataType (tree w1) k <> IO_DATA_TYPE_NUMERIC ->
        forall v, io_SetNumericDefault w path v = kill w1) /\
     (resTree_GetDataType (tree w1) k <> IO_DATA_TYPE_STRING ->
        forall v, io_SetStringDefault w path v = kill w1) /\
     (resTree_GetDataType (tree w1) k <> IO_DATA_TYPE_JSON ->
        forall v, io_SetJsonDefault w path v = kill w1)).
Proof.
  unfold io_SetBooleanDefault, io_SetNumericDefault, io_SetStringDefault, io_SetJsonDefault.
  split.
  - intros Hf. rewrite Hf. repeat split.
  - intros k Hf. rewrite Hf.
    repeat split; intros Hne v; (destruct (decide _) as [_|Hn]; [reflexivity|contradiction]).
Qed.

(** X13: io_GetTimestamp and io_GetJson do not check the data type: on
    any Input or Output with a value they never kill the client;
    io_GetTimestamp returns the value's timestamp, io_GetJson LE_OK or
    LE_OVERFLOW and the JSON projection, its timestamp left unwritten. *)
Lemma io_GetTimestamp_GetJson_any_type (fd : float -> string) (w w1 : World)
    (path : string) (k : key) (s : dataSample) :
  FindResource w path = (w1, Some k) -> resTree_GetCurrentValue (tree w1) k = Some s ->
  (forall ts, io_GetTimestamp w path ts = (w1, (LE_OK, dataSample_GetTimestamp s))) /\
  (forall ts v n, let '(w2, (r, ts', txt)) := io_GetJson fd w path ts v n in
     w2 = w1 /\ ts' = ts /\ (r = LE_OK \/ r = LE_OVERFLOW) /\
     (r, txt) = dataSample_ConvertToJson fd s (resTree_GetDataType (tree w1) k) n).
Proof.
  intros Hf Hc. split.
  - intros ts. unfold io_GetTimestamp. rewrite Hf, Hc. reflexivity.
  - intros ts v n. unfold io_GetJson. rewrite Hf, Hc.
    destruct (dataSample_ConvertToJson fd s (resTree_GetDataType (tree w1) k) n)
      as [r txt] eqn:Hj.
    split; [reflexivity|]. split; [reflexivity|]. split; [|reflexivity].
    unfold dataSample_ConvertToJson in Hj.
    match type of Hj with le_utf8_Copy ?x ?m = _ =>
      destruct (le_utf8_Copy_result x m) as [H | H]; rewrite Hj in H; simpl in H; auto end.
Qed.

(** X14: after io_PushNumeric(ts, v) on a numeric Input or Output,
    io_GetTimestamp returns ts (the wall clock for ts = 0) and
    io_GetNumeric returns v, without killing the client. *)
Lemma io_PushNumeric_then_get (w w1 : World) (path : string) (k : key) (ts v : float) :
  FindResource w path = (w1, Some k) ->
  resTree_GetDataType (tree w1) k = IO_DATA_TYPE_NUMERIC ->
  let w2 := io_PushNumeric w path ts v in
  killed w2 = killed w1 /\
  (forall t0, io_GetTimestamp w2 path t0 =
     (w2, (LE_OK, if PrimFloat.eqb ts 0%float then now w else ts))) /\
  (forall t0 x0, io_GetNumeric w2 path t0 x0 = (w2, (LE_OK, t0, v))).
Proof.
  intros Hfr Hdt w2.
  destruct (FindResource_Some _ _ _ _ Hfr) as (ns & e & Hg & Hf & Hk & Hr).
  assert (Hdt' : dataType e = IO_DATA_TYPE_NUMERIC).
  { unfold resTree_GetDataType, get_entry in Hdt. rewrite Hk in Hdt. exact Hdt. }
  set (s' := if PrimFloat.eqb ts 0%float then mkSample (now w1) (PNumeric v)
             else dataSample_CreateNumeric ts v).
  set (T := <[k := set_current s' (buffer e) e]> (tree w1)).
  assert (Hw2 : w2 = set_tree T w1).
  { subst w2 T s'. unfold io_PushNumeric. rewrite Hfr. unfold resTree_Push. rewrite Hk.
    simpl. destruct Hr as [-> | ->]; rewrite Hdt';
      (destruct (decide _) as [_|Hn]; [reflexivity | exfalso; apply Hn; reflexivity]). }
  assert (HT : T !! k = Some (set_current s' (buffer e) e)) by (apply lookup_insert_eq).
  assert (Hc : ctx w2 = Some ns) by (rewrite Hw2; exact (GetClientNamespace_ctx _ _ _ Hg)).
  assert (Hfr2 : FindResource w2 path = (w2, Some k)).
  { apply (FindResource_io w2 w2 ns k path (set_current s' (buffer e) e)).
    - unfold GetClientNamespace. rewrite Hc. reflexivity.
    - rewrite Hw2. apply resTree_FindEntry_insert. exact Hf.
    - rewrite Hw2. exact HT.
    - exact Hr. }
  assert (Hcv : resTree_GetCurrentValue (tree w2) k = Some s').
  { rewrite Hw2. unfold resTree_GetCurrentValue, get_entry. simpl. rewrite HT. reflexivity. }
  assert (Hnow : now w1 = now w).
  { exact (GetClientNamespace_now _ _ _ Hg). }
  split; [rewrite Hw2; reflexivity|]. split.
  - intros t0. unfold io_GetTimestamp. rewrite Hfr2, Hcv. subst s'.
    rewrite Hnow. destruct (PrimFloat.eqb ts 0%float); reflexivity.
  - intros t0 x0. unfold io_GetNumeric. rewrite Hfr2. unfold GetCurrentValue.
    assert (Hd2 : resTree_GetDataType (tree w2) k = IO_DATA_TYPE_NUMERIC).
    { rewrite Hw2. unfold resTree_GetDataType, get_entry. simpl. rewrite HT. exact Hdt'. }
    rewrite Hd2. destruct (decide _) as [Hn|_]; [exfalso; apply Hn; reflexivity|].
    rewrite Hcv. subst s'. destruct (PrimFloat.eqb ts 0%float); reflexivity.
Qed.

(** ** Push handlers *)

Lemma registry_ok_fresh (hs : Handlers) : registry_ok hs -> table hs !! next_ref hs = None.
Proof.
  intros Hok. destruct (table hs !! next_ref hs) as [h|] eqn:H; [|reflexivity].
  apply Hok in H. lia.
Qed.

(** X15: registering a push handler on a path that is not an Input or
    Output of the client kills the client, returns NULL and registers
    nothing. *)
Lemma AddPushHandler_not_io (w w1 : World) (path : string) :
  FindResource w path = (w1, None) ->
  forall hs dt cb c, AddPushHandler w hs path dt cb c = (kill w1, hs, None).
Proof.
  unfold FindResource, AddPushHandler. intros H hs dt cb c.
  destruct (GetClientNamespace w) as [w1' [n|]].
  - destruct (resTree_FindEntry (tree w1') n path) as [k|]; simpl in *.
    + destruct (tree w1' !! k) as [e|]; simpl in *.
      * destruct (role e); injection H as <-; try discriminate; reflexivity.
      * injection H as <-. reflexivity.
    + injection H as <-. reflexivity.
  - injection H as <-. reflexivity.
Qed.

(** X16: on an Input or Output, AddPushHandler registers exactly one new
    handler, with the entry, kind, callback and context given, under a
    reference not in use before, leaving the others and the registry
    invariant as they were. *)
Lemma AddPushHandler_registers (w w1 : World) (path : string) (k : key) (hs : Handlers) :
  FindResource w path = (w1, Some k) -> registry_ok hs ->
  forall dt cb c, exists hs' r,
    AddPushHandler w hs path dt cb c = (w1, hs', Some r) /\
    table hs !! r = None /\ table hs' !! r = Some (mkHandler k dt cb c) /\
    (forall r', r' <> r -> table hs' !! r' = table hs !! r') /\ registry_ok hs'.
Proof.
  intros Hfr Hok dt cb c.
  destruct (FindResource_Some _ _ _ _ Hfr) as (ns & e & Hg & Hf & Hk & Hr).
  exists (mkHandlers (<[next_ref hs := mkHandler k dt cb c]> (table hs)) (Pos.succ (next_ref hs))),
    (next_ref hs).
  split.
  - unfold AddPushHandler. rewrite Hg, Hf. simpl. rewrite Hk.
    destruct Hr as [-> | ->]; reflexivity.
  - split; [exact (registry_ok_fresh _ Hok)|]. simpl.
    split; [apply lookup_insert_eq|].
    split; [intros r' Hne; apply lookup_insert_ne; congruence|].
    intros r' h. simpl. destruct (decide (r' = next_ref hs)) as [->|Hne]; [lia|].
    rewrite lookup_insert_ne by congruence. intros H. apply Hok in H. lia.
Qed.

(** ** Optional Outputs *)

Lemma io_MarkOptional_cases (w w' : World) (opt opt' : gset key) (path : string) :
  io_MarkOptional w opt path = (w', opt') ->
  (forall k e, tree w !! k = Some e -> tree w' !! k = Some e) /\
  ((killed w' = true /\ opt' = opt) \/
   (exists k e, opt' = {[k]} ∪ opt /\ tree w' !! k = Some e /\
      role e = ADMIN_ENTRY_TYPE_OUTPUT /\ killed w' = killed w)).
Proof.
  unfold io_MarkOptional. destruct (FindResource w path) as [w1 [k|]] eqn:Hfr.
  - destruct (FindResource_Some _ _ _ _ Hfr) as (ns & e & Hg & Hf & Hk & Hr).
    assert (Hl : forall k' e', tree w !! k' = Some e' -> tree w1 !! k' = Some e')
      by (intros k' e'; exact (GetClientNamespace_lookup _ _ _ _ _ Hg)).
    destruct (decide _) as [Hn|Hn]; intros [= <- <-].
    + split; [intros k' e'; apply Hl|]. left. split; reflexivity.
    + split; [intros k' e'; apply Hl|]. right. exists k, e.
      simpl in Hn. rewrite Hk in Hn. split; [reflexivity|]. split; [exact Hk|].
      split; [destruct (role e); try reflexivity; exfalso; apply Hn; discriminate|].
      exact (GetClientNamespace_killed _ _ _ Hg).
  - pose proof (FindResource_world _ _ _ _ Hfr) as Hw.
    destruct (GetClientNamespace w) as [w1' o] eqn:Hg. simpl in Hw. subst w1'.
    intros [= <- <-]. split; [intros k' e'; apply (GetClientNamespace_lookup _ _ _ _ _ Hg)|].
    left. split; reflexivity.
Qed.

(** X19: io_MarkOptional either kills the client and leaves the optional
    set as it was, or adds exactly one key, which names an Output; an Input
    is never marked. *)
Lemma io_MarkOptional_outputs_only (w w' : World) (opt opt' : gset key) (path : string) :
  io_MarkOptional w opt path = (w', opt') ->
  (killed w' = true /\ opt' = opt) \/
  (exists k e, opt' = {[k]} ∪ opt /\ tree w' !! k = Some e /\
     role e = ADMIN_ENTRY_TYPE_OUTPUT /\ killed w' = killed w).
Proof. intros H. exact (proj2 (io_MarkOptional_cases _ _ _ _ _ H)). Qed.

(** X20: io_MarkOptional keeps the invariant that every entry marked
    optional is an Output of the tree. *)
Lemma io_MarkOptional_invariant (w w' : World) (opt opt' : gset key) (path : string) :
  optional_outputs (tree w) opt -> io_MarkOptional w opt path = (w', opt') ->
  optional_outputs (tree w') opt'.
Proof.
  intros Hinv H. destruct (io_MarkOptional_cases _ _ _ _ _ H) as [Hl [[_ ->] | (k & e & -> & Hk & Hr & _)]].
  - intros k' Hin. destruct (Hinv k' Hin) as (e' & He' & Hr'). exists e'. auto.
  - intros k' Hin. apply elem_of_union in Hin as [Hin | Hin].
    + apply elem_of_singleton in Hin. subst k'. exists e. auto.
    + destruct (Hinv k' Hin) as (e' & He' & Hr'). exists e'. auto.
Qed.

(** ** Witnesses *)

Lemma query_relative_path_not_found_witness :
  is_absolute "app/sensorApp/x" = false /\
  query_GetNumeric (tree world_x_pushed) "app/sensorApp/x" 0%float 0%float
    = (LE_NOT_FOUND, 0%float, 0%float).
Proof.
  assert (h : is_absolute "app/sensorApp/x" = false) by reflexivity.
  split; [exact h|].
  exact (proj1 (proj2 (proj2 (proj2 (proj2 (query_relative_path_not_found (fun _ => "1")
           (tree world_x_pushed) "app/sensorApp/x" h))))) 0%float 0%float).
Defined.

Lemma query_namespace_unsupported_witness :
  resTree_FindEntryAtAbsolutePath (tree world_x) "/app" = Some ["app"] /\
  tree world_x !! ["app"] = Some namespace_entry /\
  role namespace_entry = ADMIN_ENTRY_TYPE_NAMESPACE /\
  query_GetDataType (tree world_x) "/app" IO_DATA_TYPE_JSON = (LE_UNSUPPORTED, IO_DATA_TYPE_JSON).
Proof.
  assert (h1 : resTree_FindEntryAtAbsolutePath (tree world_x) "/app" = Some ["app"])
    by (vm_compute; reflexivity).
  assert (h2 : tree world_x !! ["app"] = Some namespace_entry) by (vm_compute; reflexivity).
  assert (h3 : role namespace_entry = ADMIN_ENTRY_TYPE_NAMESPACE) by reflexivity.
  split; [exact h1|]. split; [exact h2|]. split; [exact h3|].
  exact (proj1 (query_namespace_unsupported (fun _ => "1") (tree world_x) "/app" ["app"]
                  namespace_entry h1 h2 h3) IO_DATA_TYPE_JSON).
Defined.

Lemma FindObservation_relative_witness :
  is_absolute "o" = false /\ is_Some (tree (obs_world samples3) !! ["obs"]) /\
  FindObservation (tree (obs_world samples3)) "o"
    = FindObservation (tree (obs_world samples3)) "/obs/o".
Proof.
  assert (h1 : is_absolute "o" = false) by reflexivity.
  assert (h2 : is_Some (tree (obs_world samples3) !! ["obs"]))
    by (vm_compute; eexists; reflexivity).
  split; [exact h1|]. split; [exact h2|].
  exact (FindObservation_relative (tree (obs_world samples3)) "o" h1 h2).
Defined.

Lemma GetClientNamespace_session_witness :
  GetClientNamespace world0 = ((GetClientNamespace world0).1, Some ["app"; "sensorApp"]) /\
  ctx (GetClientNamespace world0).1 = Some ["app"; "sensorApp"].
Proof.
  assert (h : GetClientNamespace world0
              = ((GetClientNamespace world0).1, Some ["app"; "sensorApp"]))
    by (vm_compute; reflexivity).
  split; [exact h|].
  exact (proj1 (GetClientNamespace_session world0 _ _ h)).
Defined.

Lemma unidentified_client_witness :
  ctx world_anon = None /\ app_name world_anon = None /\
  io_PushNumeric world_anon "x" 1%float 2%float = kill world_anon.
Proof.
  assert (h1 : ctx world_anon = None) by reflexivity.
  assert (h2 : app_name world_anon = None) by reflexivity.
  split; [exact h1|]. split; [exact h2|].
  exact (proj1 (proj2 (proj2 (proj2 (proj2 (unidentified_client (fun _ => "1")
           world_anon "x" h1 h2))))) 1%float 2%float).
Defined.

Lemma io_Create_frame_witness :
  GetClientNamespace world_x = (world_x, Some ["app"; "sensorApp"]) /\
  tree (io_CreateInput world_x "z" IO_DATA_TYPE_BOOLEAN "").1 !! ["app"; "sensorApp"; "x"]
    = tree world_x !! ["app"; "sensorApp"; "x"].
Proof.
  assert (h : GetClientNamespace world_x = (world_x, Some ["app"; "sensorApp"]))
    by (vm_compute; reflexivity).
  split; [exact h|].
  assert (hx : tree world_x !! ["app"; "sensorApp"; "x"]
               = Some (mkEntry ADMIN_ENTRY_TYPE_INPUT IO_DATA_TYPE_NUMERIC "m" None None [] 0))
    by (vm_compute; reflexivity).
  rewrite hx.
  exact (proj1 (io_Create_frame world_x world_x ["app"; "sensorApp"] "z" IO_DATA_TYPE_BOOLEAN ""
                  h) ["app"; "sensorApp"; "x"] _ ltac:(intros Heq; vm_compute in Heq; discriminate Heq) hx).
Defined.

Lemma io_CreateInput_fresh_witness :
  GetClientNamespace world0 = ((GetClientNamespace world0).1, Some ["app"; "sensorApp"]) /\
  tree (GetClientNamespace world0).1 !! (["app"; "sensorApp"] ++ segments "x") = None /\
  is_absolute "/app/sensorApp/x" = true /\
  segments "/app/sensorApp/x" = ["app"; "sensorApp"] ++ segments "x" /\
  query_GetUnits (tree world_x) "/app/sensorApp/x" "" 8 = (LE_OK, "m").
Proof.
  assert (h1 : GetClientNamespace world0
               = ((GetClientNamespace world0).1, Some ["app"; "sensorApp"]))
    by (vm_compute; reflexivity).
  assert (h2 : tree (GetClientNamespace world0).1 !! (["app"; "sensorApp"] ++ segments "x")
               = None) by (vm_compute; reflexivity).
  assert (h3 : is_absolute "/app/sensorApp/x" = true) by reflexivity.
  assert (h4 : segments "/app/sensorApp/x" = ["app"; "sensorApp"] ++ segments "x")
    by (vm_compute; reflexivity).
  split; [exact h1|]. split; [exact h2|]. split; [exact h3|]. split; [exact h4|].
  pose proof (io_CreateInput_fresh world0 _ _ "x" "/app/sensorApp/x" IO_DATA_TYPE_NUMERIC "m"
                h1 h2 h3 h4) as H.
  unfold world_x. destruct (io_CreateInput world0 "x" IO_DATA_TYPE_NUMERIC "m") as [w' r].
  simpl. destruct H as (_ & _ & _ & Hu & _). exact (Hu "" 8).
Defined.

Lemma io_CreateOutput_twice_witness :
  GetClientNamespace world0 = ((GetClientNamespace world0).1, Some ["app"; "sensorApp"]) /\
  tree (GetClientNamespace world0).1 !! (["app"; "sensorApp"] ++ segments "y") = None /\
  io_CreateOutput world_y "y" IO_DATA_TYPE_BOOLEAN "" = (world_y, LE_OK).
Proof.
  assert (h1 : GetClientNamespace world0
               = ((GetClientNamespace world0).1, Some ["app"; "sensorApp"]))
    by (vm_compute; reflexivity).
  assert (h2 : tree (GetClientNamespace world0).1 !! (["app"; "sensorApp"] ++ segments "y")
               = None) by (vm_compute; reflexivity).
  split; [exact h1|]. split; [exact h2|].
  pose proof (io_CreateOutput_twice world0 _ _ "y" IO_DATA_TYPE_BOOLEAN "" h1 h2) as H.
  unfold world_y. destruct (io_CreateOutput world0 "y" IO_DATA_TYPE_BOOLEAN "") as [w' r].
  simpl. exact (proj1 (proj2 H)).
Defined.

Lemma io_DeleteResource_removes_witness :
  FindResource world_x "x" = (world_x, Some ["app"; "sensorApp"; "x"]) /\
  FindResource (io_DeleteResource world_x "x") "x" = (io_DeleteResource world_x "x", None).
Proof.
  assert (h : FindResource world_x "x" = (world_x, Some ["app"; "sensorApp"; "x"]))
    by (vm_compute; reflexivity).
  split; [exact h|].
  exact (proj1 (proj2 (io_DeleteResource_removes world_x world_x "x" _ h))).
Defined.

Lemma io_SetDefault_contract_witness :
  FindResource world_x "x" = (world_x, Some ["app"; "sensorApp"; "x"]) /\
  resTree_GetDataType (tree world_x) ["app"; "sensorApp"; "x"] <> IO_DATA_TYPE_BOOLEAN /\
  io_SetBooleanDefault world_x "x" true = kill world_x.
Proof.
  assert (h1 : FindResource world_x "x" = (world_x, Some ["app"; "sensorApp"; "x"]))
    by (vm_compute; reflexivity).
  assert (h2 : resTree_GetDataType (tree world_x) ["app"; "sensorApp"; "x"]
               <> IO_DATA_TYPE_BOOLEAN) by (vm_compute; discriminate).
  split; [exact h1|]. split; [exact h2|].
  exact (proj1 (proj2 (io_SetDefault_contract world_x world_x "x") _ h1) h2 true).
Defined.

Lemma io_GetTimestamp_GetJson_any_type_witness :
  FindResource world_x_pushed "x" = (world_x_pushed, Some ["app"; "sensorApp"; "x"]) /\
  resTree_GetCurrentValue (tree world_x_pushed) ["app"; "sensorApp"; "x"]
    = Some (mkSample 5%float (PNumeric 1%float)) /\
  io_GetTimestamp world_x_pushed "x" 0%float = (world_x_pushed, (LE_OK, 5%float)).
Proof.
  assert (h1 : FindResource world_x_pushed "x"
               = (world_x_pushed, Some ["app"; "sensorApp"; "x"])) by (vm_compute; reflexivity).
  assert (h2 : resTree_GetCurrentValue (tree world_x_pushed) ["app"; "sensorApp"; "x"]
               = Some (mkSample 5%float (PNumeric 1%float))) by (vm_compute; reflexivity).
  split; [exact h1|]. split; [exact h2|].
  exact (proj1 (io_GetTimestamp_GetJson_any_type (fun _ => "1") world_x_pushed world_x_pushed
                  "x" _ _ h1 h2) 0%float).
Defined.

Lemma io_PushNumeric_then_get_witness :
  FindResource world_x "x" = (world_x, Some ["app"; "sensorApp"; "x"]) /\
  resTree_GetDataType (tree world_x) ["app"; "sensorApp"; "x"] = IO_DATA_TYPE_NUMERIC /\
  io_GetTimestamp (io_PushNumeric world_x "x" 0%float 2%float) "x" 0%float
    = (io_PushNumeric world_x "x" 0%float 2%float, (LE_OK, now world_x)).
Proof.
  assert (h1 : FindResource world_x "x" = (world_x, Some ["app"; "sensorApp"; "x"]))
    by (vm_compute; reflexivity).
  assert (h2 : resTree_GetDataType (tree world_x) ["app"; "sensorApp"; "x"]
               = IO_DATA_TYPE_NUMERIC) by (vm_compute; reflexivity).
  split; [exact h1|]. split; [exact h2|].
  exact (proj1 (proj2 (io_PushNumeric_then_get world_x world_x "x" _ 0%float 2%float h1 h2))
           0%float).
Defined.

Lemma AddPushHandler_not_io_witness :
  FindResource world_obs_in_ns "o" = (world_obs_in_ns, None) /\
  AddPushHandler world_obs_in_ns handlers0 "o" IO_DATA_TYPE_NUMERIC 1 2
    = (kill world_obs_in_ns, handlers0, None).
Proof.
  assert (h : FindResource world_obs_in_ns "o" = (world_obs_in_ns, None))
    by (vm_compute; reflexivity).
  split; [exact h|].
  exact (AddPushHandler_not_io world_obs_in_ns world_obs_in_ns "o" h handlers0
           IO_DATA_TYPE_NUMERIC 1 2).
Defined.

Lemma registry_ok_handlers0 : registry_ok handlers0.
Proof. intros r h H. simpl in H. rewrite lookup_empty in H. discriminate. Qed.

Lemma AddPushHandler_registers_witness :
  FindResource world_x "x" = (world_x, Some ["app"; "sensorApp"; "x"]) /\
  registry_ok handlers0 /\
  exists hs' r,
    AddPushHandler world_x handlers0 "x" IO_DATA_TYPE_NUMERIC 1 2 = (world_x, hs', Some r) /\
    table handlers0 !! r = None /\
    table hs' !! r = Some (mkHandler ["app"; "sensorApp"; "x"] IO_DATA_TYPE_NUMERIC 1 2) /\
    (forall r', r' <> r -> table hs' !! r' = table handlers0 !! r') /\ registry_ok hs'.
Proof.
  assert (h : FindResource world_x "x" = (world_x, Some ["app"; "sensorApp"; "x"]))
    by (vm_compute; reflexivity).
  split; [exact h|]. split; [exact registry_ok_handlers0|].
  exact (AddPushHandler_registers world_x world_x "x" _ handlers0 h registry_ok_handlers0
           IO_DATA_TYPE_NUMERIC 1 2).
Defined.

Lemma io_MarkOptional_outputs_only_witness :
  io_MarkOptional world_out ∅ "x" = (world_out, {[["app"; "sensorApp"; "x"]]} ∪ ∅) /\
  ((killed world_out = true /\ {[["app"; "sensorApp"; "x"]]} ∪ ∅ = (∅ : gset key)) \/
   (exists k e, {[["app"; "sensorApp"; "x"]]} ∪ ∅ = {[k]} ∪ (∅ : gset key) /\
      tree world_out !! k = Some e /\ role e = ADMIN_ENTRY_TYPE_OUTPUT /\
      killed world_out = killed world_out)).
Proof.
  assert (h : io_MarkOptional world_out ∅ "x" = (world_out, {[["app"; "sensorApp"; "x"]]} ∪ ∅))
    by (vm_compute; reflexivity).
  split; [exact h|].
  exact (io_MarkOptional_outputs_only world_out world_out ∅ _ "x" h).
Defined.

Lemma io_MarkOptional_invariant_witness :
  optional_outputs (tree world_out) ∅ /\
  io_MarkOptional world_out ∅ "x" = (world_out, {[["app"; "sensorApp"; "x"]]} ∪ ∅) /\
  optional_outputs (tree world_out) ({[["app"; "sensorApp"; "x"]]} ∪ ∅).
Proof.
  assert (h1 : optional_outputs (tree world_out) ∅).
  { intros k Hk. apply elem_of_empty in Hk. contradiction. }
  assert (h2 : io_MarkOptional world_out ∅ "x" = (world_out, {[["app"; "sensorApp"; "x"]]} ∪ ∅))
    by (vm_compute; reflexivity).
  split; [exact h1|]. split; [exact h2|].
  exact (io_MarkOptional_invariant world_out world_out ∅ _ "x" h1 h2).
Defined.
